(** * The request authentication and throttling pipeline of cohort-mine

    Shallow embedding of
    - [src/04-week-4/4.4-middlewares.js]   (per-user rate limit, error stage),
    - [src/unnamed/part_008]               (the [rateLimiter] factory, error stage),
    - [src/06-week-6/6.1-http-deepdive.js] ([authenticateToken], [/me]),
    and the properties of the specification stated over it. *)

From Stdlib Require Import ZArith String Ascii List Bool Lia DecimalString DecimalNat.
From stdpp Require Import gmap strings list.

Local Open Scope string_scope.
Local Open Scope Z_scope.

(** ** HTTP responses and middleware outcomes *)

(** [res.status(code).json({...})]: a status code and the fields of the JSON
    object, in the order in which the source writes them. *)
Record response := mkResponse {
  status : Z;
  body : list (string * string)
}.

(** A middleware either ends the request with a response or calls [next()]. *)
Inductive outcome :=
| Respond (r : response)
| Next.

(** ** JavaScript objects used as counter tables *)

Module JsObject.

(** Primitive values that the limiters store: numbers and strings.  Counts
    are integers far below 2^53, where the arithmetic of doubles is exact. *)
Inductive prim :=
| PNum (n : Z)
| PStr (s : string).

(** Values that a property read can produce: a stored primitive, a built-in
    function inherited from [Object.prototype], or [Object.prototype]
    itself (what the inherited accessor [__proto__] returns).  [undefined]
    is [None]. *)
Inductive value :=
| VPrim (p : prim)
| VFun (name : string)
| VObjProto.

(** The members of [Object.prototype], with the name of each function. *)
Definition objectPrototypeFunctions : list (string * string) :=
  [ ("constructor", "Object");
    ("hasOwnProperty", "hasOwnProperty");
    ("isPrototypeOf", "isPrototypeOf");
    ("propertyIsEnumerable", "propertyIsEnumerable");
    ("toLocaleString", "toLocaleString");
    ("toString", "toString");
    ("valueOf", "valueOf");
    ("__defineGetter__", "__defineGetter__");
    ("__defineSetter__", "__defineSetter__");
    ("__lookupGetter__", "__lookupGetter__");
    ("__lookupSetter__", "__lookupSetter__") ].

Fixpoint assoc (k : string) (l : list (string * string)) : option string :=
  match l with
  | [] => None
  | (k', v) :: l' => if String.eqb k k' then Some v else assoc k l'
  end.

(** What a read of [k] finds on [Object.prototype]. *)
Definition inherited (k : string) : option value :=
  if String.eqb k "__proto__" then Some VObjProto
  else VFun <$> assoc k objectPrototypeFunctions.

(** An object created by the literal [{}] and updated by assignments of
    primitives only: its own properties; its prototype is
    [Object.prototype]. *)
Abbreviation object := (gmap string prim).

(** [o[k]]: the accessor [__proto__] is inherited and is never shadowed
    (see [set]); otherwise the own property, then the prototype. *)
Definition get (o : object) (k : string) : option value :=
  if String.eqb k "__proto__" then Some VObjProto
  else match o !! k with
       | Some p => Some (VPrim p)
       | None => inherited k
       end.

(** [o[k] = p] for a primitive [p]: the function members of
    [Object.prototype] are writable data properties, so the assignment
    creates an own property; the setter of [__proto__] ignores a value that
    is neither an object nor [null]. *)
Definition set (o : object) (k : string) (p : prim) : object :=
  if String.eqb k "__proto__" then o else <[k := p]> o.

(** The key under which [o[x]] looks when [x] is a string or [undefined]. *)
Definition propertyKey (x : option string) : string :=
  match x with
  | Some s => s
  | None => "undefined"
  end.

Definition truthy (v : option value) : bool :=
  match v with
  | None => false
  | Some (VPrim (PNum n)) => negb (Z.eqb n 0)
  | Some (VPrim (PStr s)) => negb (String.eqb s "")
  | Some (VFun _) => true
  | Some VObjProto => true
  end.

(** [v || 0] *)
Definition orZero (v : option value) : value :=
  if truthy v then default (VPrim (PNum 0)) v else VPrim (PNum 0).

(** The text of a built-in function. *)
Definition funText (name : string) : string :=
  "function " +:+ name +:+ "() { [native code] }".

(** [v + 1]: addition on numbers, concatenation once an operand converts to
    a string. *)
Definition addOne (v : value) : prim :=
  match v with
  | VPrim (PNum n) => PNum (n + 1)
  | VPrim (PStr s) => PStr (s +:+ "1")
  | VFun name => PStr (funText name +:+ "1")
  | VObjProto => PStr "[object Object]1"
  end.

(** [v > max] for a number [max].  Every string that reaches a table is the
    text of a built-in function followed by appended digits (lemma
    [run_texts]); such a text is not a numeric literal, converts to NaN, and
    every comparison with NaN is false.  [Object.prototype] itself and
    [undefined] convert to NaN as well. *)
Definition greater (v : option value) (max : Z) : bool :=
  match v with
  | Some (VPrim (PNum n)) => Z.ltb max n
  | _ => false
  end.

End JsObject.

Import JsObject.

(** ** The rate limiters *)

(** [src/unnamed/part_008], [rateLimiter(maxRequests)]: the middleware that
    the factory returns, as a function of the closure's table [requests] and
    of [req.ip]. *)
Definition rateLimiter (maxRequests : Z) (requests : object) (ip : option string)
  : outcome * object :=
  let k := propertyKey ip in
  let requests := set requests k (addOne (orZero (get requests k))) in
  if greater (get requests k) maxRequests
  then (Respond (mkResponse 429 [("error", "Too many requests")]), requests)
  else (Next, requests).

(** [src/04-week-4/4.4-middlewares.js], lines 11-18: the limiter keyed by the
    [user-id] header, with the maximum 1 written in the comparison. *)
Definition ride1Limiter (numberOfRide1Requests : object) (userId : option string)
  : outcome * object :=
  let k := propertyKey userId in
  let numberOfRide1Requests :=
    set numberOfRide1Requests k (addOne (orZero (get numberOfRide1Requests k))) in
  if greater (get numberOfRide1Requests k) 1
  then (Respond (mkResponse 429
          [("error", "You have made too many requests to ride1")]),
        numberOfRide1Requests)
  else (Next, numberOfRide1Requests).

(** Lines 7-9: the callback of [setInterval] replaces the table by [{}]. *)
Definition resetWindow (numberOfRide1Requests : object) : object := ∅.

(** What the server of 4.4-middlewares.js sees: requests (with their
    [user-id] header, if any) and firings of the window timer. *)
Inductive event :=
| Request (userId : option string)
| TimerFires.

(** The outcomes of the requests of a run, in order, and the final table. *)
Fixpoint run (evs : list event) (table : object) : list outcome * object :=
  match evs with
  | [] => ([], table)
  | Request u :: evs' =>
      let '(o, table') := ride1Limiter table u in
      let '(os, table'') := run evs' table' in
      (o :: os, table'')
  | TimerFires :: evs' => run evs' (resetWindow table)
  end.

(** The same for a limiter made by the factory (which has no timer). *)
Fixpoint runLimiter (maxRequests : Z) (ips : list (option string)) (requests : object)
  : list outcome * object :=
  match ips with
  | [] => ([], requests)
  | ip :: ips' =>
      let '(o, requests') := rateLimiter maxRequests requests ip in
      let '(os, requests'') := runLimiter maxRequests ips' requests' in
      (o :: os, requests'')
  end.

(** ** The error stages *)

(** A JavaScript [Error]: its name, its message and its stack trace. *)
Record jsError := mkError {
  name : string;
  message : string;
  stack : string
}.

(** What an error stage does: the argument lists of its [console.error]
    calls and the response it sends. *)
Record errorReport := mkErrorReport {
  logged : list (list string);
  sent : response
}.

(** [src/04-week-4/4.4-middlewares.js], lines 41-43. *)
Definition ride1ErrorHandler (err : jsError) : errorReport :=
  mkErrorReport [] (mkResponse 500 [("error", message err)]).

(** [src/unnamed/part_008], lines 74-77. *)
Definition errorHandler (err : jsError) : errorReport :=
  mkErrorReport [["Error:"; message err]]
                (mkResponse 500 [("error", "Internal server error")]).

(** [src/04-week-4/4.4-middlewares.js], lines 33-35: the route [GET /] throws;
    Express hands the exception to the error stage. *)
Definition testError : jsError :=
  mkError "Error" "This is a test error" "Error: This is a test error\n    at /".


(** ** Strings as the authentication middleware uses them *)

(** [s.split(sep)] for a separator of one character. *)
Fixpoint split (sep : ascii) (s : string) : list string :=
  match s with
  | EmptyString => [EmptyString]
  | String c s' =>
      if Ascii.eqb c sep then EmptyString :: split sep s'
      else match split sep s' with
           | [] => [String c EmptyString]
           | piece :: pieces => String c piece :: pieces
           end
  end.

(** [s.startsWith(p)] *)
Fixpoint startsWith (p s : string) : bool :=
  match p, s with
  | EmptyString, _ => true
  | String c p', String d s' => Ascii.eqb c d && startsWith p' s'
  | String _ _, EmptyString => false
  end.

(** Truthiness of a value that is a string or [undefined]/[null]. *)
Definition truthyString (x : option string) : bool :=
  match x with
  | Some s => negb (String.eqb s "")
  | None => false
  end.

(** ** Requests, users and tokens *)

(** The parts of [req] that [authenticateToken] reads: [req.cookies.token],
    [req.headers.authorization], [req.headers['x-auth-token']] and
    [req.query.token], each a string (a plain cookie, a query parameter given
    once) or [undefined], which is [None]. *)
Record request := mkRequest {
  cookies_token : option string;
  headers_authorization : option string;
  headers_x_auth_token : option string;
  query_token : option string
}.

(** An element of [users], as [/signup] pushes it. *)
Record user := mkUser {
  username : string;
  password : string
}.

(** The decoded payload of a token: [decoded.username] and [decoded.exp]. *)
Record tokenData := mkTokenData {
  decoded_username : option string;
  exp : option Z
}.

(** The result of [jwt.verify(token, secret)]: the payload, or a thrown
    error, of which the middleware reads the [name]. *)
Inductive verifyResult :=
| Decoded (decoded : tokenData)
| Throws (error : jsError).

(** The result of the lookup in the user store: [users.find] returns an
    element or [undefined]; a store other than an array may throw. *)
Inductive lookupResult :=
| Found (u : user)
| NotFound
| LookupThrows (error : jsError).

(** [users.find(u => u.username === decoded.username)] on the array. *)
Definition usersFind (users : list user) (wanted : option string) : lookupResult :=
  match find (fun u => match wanted with
                       | Some n => String.eqb (username u) n
                       | None => false
                       end) users with
  | Some u => Found u
  | None => NotFound
  end.

(** [process.env.JWT_SECRET || 'your-secret-key'] *)
Definition JWT_SECRET (env_JWT_SECRET : option string) : string :=
  if truthyString env_JWT_SECRET then default "" env_JWT_SECRET
  else "your-secret-key".

(** What the middleware attaches to [req]. *)
Inductive attachment :=
| AUser (u : user)
| ATokenData (decoded : tokenData).

(** The calls a run of the middleware makes to the later stages. *)
Inductive call :=
| CallVerify (token secret : string)
| CallFind (wanted : option string)
| CallNext.

(** How the middleware ends: with a response, or by calling [next()] with the
    properties it has assigned on [req], in order. *)
Inductive authOutcome :=
| Rejected (r : response)
| Continue (attached : list (string * attachment)).

Definition noTokenResponse : response :=
  mkResponse 401
    [("message", "Authentication required. No token provided.");
     ("hint", "Send token via Cookie, Authorization header, x-auth-token header, or query parameter")].
Definition userNotFoundResponse : response :=
  mkResponse 401 [("message", "User not found")].
Definition tokenExpiredResponse : response :=
  mkResponse 401 [("message", "Token expired")].
Definition invalidTokenResponse : response :=
  mkResponse 401 [("message", "Invalid token")].

(** Lines 34-51 of [authenticateToken]: the value of [token] when the chain
    of conditionals is left ([None] is [null] or [undefined]). *)
Definition resolveToken (req : request) : option string :=
  if truthyString (cookies_token req) then cookies_token req
  else if match headers_authorization req with
          | Some a => startsWith "Bearer " a
          | None => false
          end
  then split " " (default "" (headers_authorization req)) !! 1%nat
  else if truthyString (headers_x_auth_token req) then headers_x_auth_token req
  else if truthyString (query_token req) then query_token req
  else None.

Section Authentication.

(** [jwt.verify] of the library jsonwebtoken, as a function of the token,
    the secret and the clock (in seconds) that the library reads. *)
Variable jwt_verify : string -> string -> Z -> verifyResult.

(** The lookup in the user store. *)
Variable findUser : option string -> lookupResult.

(** The handler of the [catch] clause, lines 74-79. *)
Definition catchClause (error : jsError) : response :=
  if String.eqb (name error) "TokenExpiredError" then tokenExpiredResponse
  else invalidTokenResponse.

(** [authenticateToken], lines 33-80, with the store lookup of line 64
    left to [findUser].  The lookup is inside the [try] block, so an
    exception of the store reaches the same [catch] clause. *)
Definition authenticateWith (secret : string) (now : Z) (req : request)
  : list call * authOutcome :=
  let token := resolveToken req in
  if negb (truthyString token) then ([], Rejected noTokenResponse)
  else
    let token := default "" token in
    match jwt_verify token secret now with
    | Decoded decoded =>
        match findUser (decoded_username decoded) with
        | Found u =>
            ([CallVerify token secret; CallFind (decoded_username decoded); CallNext],
             Continue [("user", AUser u); ("tokenData", ATokenData decoded)])
        | NotFound =>
            ([CallVerify token secret; CallFind (decoded_username decoded)],
             Rejected userNotFoundResponse)
        | LookupThrows error =>
            ([CallVerify token secret; CallFind (decoded_username decoded)],
             Rejected (catchClause error))
        end
    | Throws error => ([CallVerify token secret], Rejected (catchClause error))
    end.

End Authentication.

(** [authenticateToken] as the source has it: the store is the array [users]
    and the secret is the constant [JWT_SECRET]. *)
Definition authenticateToken
  (jwt_verify : string -> string -> Z -> verifyResult)
  (env_JWT_SECRET : option string) (users : list user) (now : Z) (req : request)
  : list call * authOutcome :=
  authenticateWith jwt_verify (usersFind users) (JWT_SECRET env_JWT_SECRET) now req.

(** ** The protected route [GET /me] *)

(** What a route handler does: it sends a response or raises. *)
Inductive handlerResult :=
| Sends (r : response)
| Raises (error : jsError).

Fixpoint readUser (attached : list (string * attachment)) : option user :=
  match attached with
  | [] => None
  | (_, AUser u) :: _ => Some u
  | _ :: rest => readUser rest
  end.

Fixpoint readTokenData (attached : list (string * attachment)) : option tokenData :=
  match attached with
  | [] => None
  | (_, ATokenData d) :: _ => Some d
  | _ :: rest => readTokenData rest
  end.

Section Routes.

Variable jwt_verify : string -> string -> Z -> verifyResult.

(** [new Date(ms).toISOString()] for a time value in range. *)
Variable toISOString : Z -> string.

(** Lines 138-143: the handler reads [req.user.username] and
    [req.tokenData.exp]; a [Date] outside of +-8.64e15 ms, or made
    from [undefined], has no ISO string. *)
Definition getMe (attached : list (string * attachment)) : handlerResult :=
  match readUser attached, readTokenData attached with
  | Some u, Some d =>
      match exp d with
      | Some e =>
          if Z.abs (e * 1000) <=? 8640000000000000
          then Sends (mkResponse 200 [("username", username u);
                                      ("tokenExpiry", toISOString (e * 1000))])
          else Raises (mkError "RangeError" "Invalid time value" "")
      | None => Raises (mkError "RangeError" "Invalid time value" "")
      end
  | _, _ => Raises (mkError "TypeError" "Cannot read properties of undefined" "")
  end.

(** [app.get('/me', authenticateToken, handler)]: the handler runs only
    when the middleware calls [next()]. *)
Definition routeMe (env_JWT_SECRET : option string) (users : list user) (now : Z)
  (req : request) : list call * handlerResult :=
  match authenticateToken jwt_verify env_JWT_SECRET users now req with
  | (calls, Rejected r) => (calls, Sends r)
  | (calls, Continue attached) => (calls, getMe attached)
  end.

End Routes.

(** ** A stand-in for the token library

    Tokens of the form [user.exp.signature], where the signature is the
    secret itself: enough to run the middleware on concrete requests.  Like
    jsonwebtoken, it checks the structure and the signature before the
    expiry. *)

Definition digitValue (c : ascii) : option Z :=
  let n := Z.of_nat (nat_of_ascii c) in
  if (48 <=? n) && (n <=? 57) then Some (n - 48) else None.

Fixpoint parseDigits (acc : Z) (s : string) : option Z :=
  match s with
  | EmptyString => Some acc
  | String c s' =>
      match digitValue c with
      | Some d => parseDigits (10 * acc + d) s'
      | None => None
      end
  end.

Definition parseDecimal (s : string) : option Z :=
  match s with
  | EmptyString => None
  | _ => parseDigits 0 s
  end.

Definition toySignedWith (token secret : string) : bool :=
  match split "." token with
  | [_; e; sig] => String.eqb sig secret && bool_decide (is_Some (parseDecimal e))
  | _ => false
  end.

Definition toyExpiry (token : string) : option Z :=
  match split "." token with
  | [_; e; _] => parseDecimal e
  | _ => None
  end.

Definition toyVerify (token secret : string) (now : Z) : verifyResult :=
  match split "." token with
  | [u; e; sig] =>
      if String.eqb sig secret then
        match parseDecimal e with
        | Some e =>
            if e <=? now
            then Throws (mkError "TokenExpiredError" "jwt expired" "")
            else Decoded (mkTokenData (Some u) (Some e))
        | None => Throws (mkError "JsonWebTokenError" "invalid token" "")
        end
      else Throws (mkError "JsonWebTokenError" "invalid signature" "")
  | _ => Throws (mkError "JsonWebTokenError" "jwt malformed" "")
  end.

(** What the middleware relies on from the library: a token that is not
    well formed and signed with the secret raises [JsonWebTokenError]
    whatever its expiry; a well-signed token raises [TokenExpiredError] once
    the clock has reached its expiry, and decodes before. *)
Record JwtContract (verify : string -> string -> Z -> verifyResult)
  (signedWith : string -> string -> bool) (expiry : string -> option Z) : Prop := {
  verify_bad_signature : forall token secret now,
    signedWith token secret = false ->
    exists error, verify token secret now = Throws error
                  /\ name error = "JsonWebTokenError";
  verify_expired : forall token secret now e,
    signedWith token secret = true -> expiry token = Some e -> e <= now ->
    exists error, verify token secret now = Throws error
                  /\ name error = "TokenExpiredError";
  verify_valid : forall token secret now e,
    signedWith token secret = true -> expiry token = Some e -> now < e ->
    exists decoded, verify token secret now = Decoded decoded
                    /\ exp decoded = Some e
}.

(** ** The resolver as the specification words it *)

(** The candidate of each transport, in the order of the specification:
    cookie, bearer header, custom header, query parameter. *)
Definition bearerCandidate (req : request) : option string :=
  match headers_authorization req with
  | Some a => if startsWith "Bearer " a then split " " a !! 1%nat else None
  | None => None
  end.

Definition candidates (req : request) : list (option string) :=
  [cookies_token req; bearerCandidate req; headers_x_auth_token req; query_token req].

(** The first non-empty candidate of a list. *)
Fixpoint firstNonEmpty (cs : list (option string)) : option string :=
  match cs with
  | [] => None
  | c :: cs' => if truthyString c then c else firstNonEmpty cs'
  end.

Definition resolve_spec (req : request) : option string :=
  firstNonEmpty (candidates req).

(** The classifications of the specification that a response of
    [authenticateToken] carries. *)
Inductive rejection :=
| NoCredential
| MalformedToken
| ExpiredToken
| PrincipalNotFound.

Definition report (rej : rejection) : response :=
  match rej with
  | NoCredential => noTokenResponse
  | MalformedToken => invalidTokenResponse
  | ExpiredToken => tokenExpiredResponse
  | PrincipalNotFound => userNotFoundResponse
  end.

(** ** Predicates on counter tables *)

(** The entry of [k] is absent or a count of at least one. *)
Definition counted (o : object) (k : string) : Prop :=
  match o !! k with
  | None => True
  | Some (PNum n) => 1 <= n
  | Some (PStr _) => False
  end.

(** The entry of [k] is a count of at least one. *)
Definition present (o : object) (k : string) : Prop :=
  exists n, o !! k = Some (PNum n) /\ 1 <= n.

(** Every text stored in the table starts with ["function "]: it is not a
    numeric literal. *)
Definition textsAreBuiltin (o : object) : Prop :=
  forall k s, o !! k = Some (PStr s) -> startsWith "function " s = true.

(** The number of requests of a list that are counted under the key [k]. *)
Definition requestsOf (k : string) (ips : list (option string)) : Z :=
  Z.of_nat (length (filter (fun ip => propertyKey ip = k) ips)).

Definition tooManyRequests : response :=
  mkResponse 429 [("error", "Too many requests")].
Definition tooManyRide1Requests : response :=
  mkResponse 429 [("error", "You have made too many requests to ride1")].

(** ** The public routes of 6.1-http-deepdive.js *)

(** [req.body] of [/signup] and [/signin]: the fields [username] and
    [password], each a string or [undefined]. *)
Record credentials := mkCredentials {
  body_username : option string;
  body_password : option string
}.

(** Lines 86-100: [POST /signup], as a function of the array [users]; the
    new user is pushed at the end. *)
Definition signup (users : list user) (body : credentials) : response * list user :=
  if negb (truthyString (body_username body)) || negb (truthyString (body_password body))
  then (mkResponse 400 [("message", "Username and password are required")], users)
  else
    let name := default "" (body_username body) in
    match find (fun u => String.eqb (username u) name) users with
    | Some _ => (mkResponse 409 [("message", "User already exists")], users)
    | None =>
        (mkResponse 201 [("message", "User created successfully")],
         users ++ [mkUser name (default "" (body_password body))])%list
    end.

(** The array [users] after a sequence of calls of [/signup]. *)
Fixpoint signups (users : list user) (bodies : list credentials) : list user :=
  match bodies with
  | [] => users
  | body :: bodies' => signups (snd (signup users body)) bodies'
  end.

(** A cookie as [res.cookie] sets it. *)
Record cookie := mkCookie {
  cookieName : string;
  cookieValue : string;
  httpOnly : bool;
  secure : bool;
  sameSite : string;
  maxAge : Z
}.


Section Signin.

(** [jwt.sign(payload, secret, { expiresIn })] of the library jsonwebtoken for
    a payload [{ username }], as a function of the user name, the secret, the
    lifetime in seconds and the clock. *)
Variable jwt_sign : string -> string -> Z -> Z -> string.



End Signin.



(** ** The demonstration routes of 6.1-http-deepdive.js *)

(** The field [username] of a JSON body: left out when [undefined]. *)
Definition usernameField (decoded : tokenData) : list (string * string) :=
  match decoded_username decoded with
  | Some n => [("username", n)]
  | None => []
  end.

Definition doubleQuote : string := String (ascii_of_nat 34) EmptyString.

Section DemoRoutes.

Variable jwt_verify : string -> string -> Z -> verifyResult.

(** Lines 180-191: [GET /demo/cookie-only]. *)
Definition demoCookieOnly (env_JWT_SECRET : option string) (now : Z) (req : request)
  : response :=
  if negb (truthyString (cookies_token req))
  then mkResponse 401
         [("message", "Cookie authentication only - no token in cookie")]
  else
    match jwt_verify (default "" (cookies_token req)) (JWT_SECRET env_JWT_SECRET) now with
    | Decoded decoded =>
        mkResponse 200 (("message", "Authenticated via Cookie") :: usernameField decoded)
    | Throws _ => mkResponse 401 [("message", "Invalid token")]
    end.

(** Lines 193-205: [GET /demo/bearer-only]. *)
Definition demoBearerOnly (env_JWT_SECRET : option string) (now : Z) (req : request)
  : response :=
  match headers_authorization req with
  | Some authHeader =>
      if startsWith "Bearer " authHeader then
        match jwt_verify (default "" (split " " authHeader !! 1%nat))
                (JWT_SECRET env_JWT_SECRET) now with
        | Decoded decoded =>
            mkResponse 200
              (("message", "Authenticated via Bearer token") :: usernameField decoded)
        | Throws _ => mkResponse 401 [("message", "Invalid token")]
        end
      else mkResponse 401
             [("message", "Bearer authentication only - send " +:+ doubleQuote
                          +:+ "Authorization: Bearer <token>" +:+ doubleQuote)]
  | None => mkResponse 401
              [("message", "Bearer authentication only - send " +:+ doubleQuote
                           +:+ "Authorization: Bearer <token>" +:+ doubleQuote)]
  end.

End DemoRoutes.

(** ** Decimal numerals *)

(** The decimal numeral of a natural number, as [String(n)] writes it. *)
Definition decimal (n : nat) : string :=
  NilZero.string_of_uint (Nat.to_uint n).

(** [s.includes(c)] for a character [c]. *)
Fixpoint includesChar (c : ascii) (s : string) : bool :=
  match s with
  | EmptyString => false
  | String d s' => Ascii.eqb d c || includesChar c s'
  end.


(** ** [parseInt] and the age check of 4.4-middlewares.js

    A character is a code unit below U+0100. *)

(** The white space that [parseInt] skips: TAB, LF, VT, FF, CR, SP, NBSP. *)
Definition isWhiteSpace (c : ascii) : bool :=
  let n := nat_of_ascii c in
  (Nat.eqb n 9 || Nat.eqb n 10 || Nat.eqb n 11 || Nat.eqb n 12 || Nat.eqb n 13
   || Nat.eqb n 32 || Nat.eqb n 160)%bool.

Fixpoint trimStart (s : string) : string :=
  match s with
  | EmptyString => EmptyString
  | String c s' => if isWhiteSpace c then trimStart s' else s
  end.

(** The value of a character as a digit of the radix, if it is one. *)
Definition digitOf (radix : Z) (c : ascii) : option Z :=
  let n := Z.of_nat (nat_of_ascii c) in
  let v := if (48 <=? n) && (n <=? 57) then Some (n - 48)
           else if (97 <=? n) && (n <=? 122) then Some (n - 87)
           else if (65 <=? n) && (n <=? 90) then Some (n - 55)
           else None in
  match v with
  | Some d => if d <? radix then Some d else None
  | None => None
  end.

(** The value of the longest prefix of digits. *)
Fixpoint digitsValue (radix acc : Z) (s : string) : Z :=
  match s with
  | EmptyString => acc
  | String c s' =>
      match digitOf radix c with
      | Some d => digitsValue radix (acc * radix + d) s'
      | None => acc
      end
  end.

(** [parseInt(x)] without a radix, for a string or [undefined]; [None] is
    NaN.  The result is the integer that the digits denote; JavaScript rounds
    it to a double, which compares with 18 as the integer does. *)
Definition parseInt (x : option string) : option Z :=
  let inputString := match x with Some s => s | None => "undefined" end in
  let s := trimStart inputString in
  let '(sign, s) :=
    match s with
    | String c s' =>
        if Ascii.eqb c "-" then (-1, s')
        else if Ascii.eqb c "+" then (1, s')
        else (1, s)
    | EmptyString => (1, s)
    end in
  let '(radix, s) :=
    match s with
    | String c0 (String c1 s') =>
        if Ascii.eqb c0 "0" && (Ascii.eqb c1 "x" || Ascii.eqb c1 "X")
        then (16, s') else (10, s)
    | _ => (10, s)
    end in
  match s with
  | String c _ =>
      match digitOf radix c with
      | Some _ => Some (sign * digitsValue radix 0 s)
      | None => None
      end
  | EmptyString => None
  end.

(** Lines 19-25: [isOldEnough], as a function of [req.query.age] (a string,
    or [undefined] when the parameter is missing). *)
Definition isOldEnough (age : option string) : outcome :=
  match parseInt age with
  | None => Respond (mkResponse 401 [("error", "You are not old enough to ride the ride1")])
  | Some n =>
      if n <? 18
      then Respond (mkResponse 401 [("error", "You are not old enough to ride the ride1")])
      else Next
  end.


(** ** The server of 4.4-middlewares.js *)

Inductive route :=
| GetRoot
| GetRide1.

(** A request: its [user-id] header, the route it matches and its query
    parameter [age]. *)
Record ride1Request := mkRide1Request {
  req_userId : option string;
  req_route : route;
  req_age : option string
}.

(** The two variables of the module. *)
Record ride1State := mkRide1State {
  requestCounter : nat;
  requestTable : object
}.

(** The chain that a request runs through: the rate limit (lines 11-18), the
    counting middleware (lines 28-32), then the route (lines 33-40), whose
    exception goes to the error stage (lines 41-43).  The result is the
    response, the lines written by [console.log] and the new state. *)
Definition handleRide1 (st : ride1State) (req : ride1Request)
  : response * list string * ride1State :=
  let '(o, table) := ride1Limiter (requestTable st) (req_userId req) in
  match o with
  | Respond r => (r, [], mkRide1State (requestCounter st) table)
  | Next =>
      let counter := S (requestCounter st) in
      let log := ["Total requests: " +:+ decimal counter] in
      let st' := mkRide1State counter table in
      match req_route req with
      | GetRoot => (sent (ride1ErrorHandler testError), log, st')
      | GetRide1 =>
          match isOldEnough (req_age req) with
          | Respond r => (r, log, st')
          | Next =>
              (mkResponse 200 [("message", "you have successfully ridden the ride1")],
               log, st')
          end
      end
  end.

Inductive ride1Event :=
| Arrives (req : ride1Request)
| WindowEnds.

(** The responses of a run, in order, and the final state. *)
Fixpoint serve (evs : list ride1Event) (st : ride1State) : list response * ride1State :=
  match evs with
  | [] => ([], st)
  | Arrives req :: evs' =>
      let '(r, _, st') := handleRide1 st req in
      let '(rs, st'') := serve evs' st' in
      (r :: rs, st'')
  | WindowEnds :: evs' =>
      serve evs' (mkRide1State (requestCounter st) (resetWindow (requestTable st)))
  end.

(** ** The CORS middlewares of part_008 *)

(** What the CORS middlewares read of a request: [req.method] and
    [req.headers.origin]. *)
Record corsRequest := mkCorsRequest {
  method : string;
  origin : option string
}.

(** How a CORS middleware ends: [res.sendStatus(code)] or [next()]. *)
Inductive corsOutcome :=
| SendStatus (code : Z)
| CorsNext.

(** Lines 93-103: the middleware that allows every origin, as a function of
    the response headers set so far. *)
Definition corsAllowAll (req : corsRequest) (headers : gmap string string)
  : corsOutcome * gmap string string :=
  let headers := <["Access-Control-Allow-Origin" := "*"]> headers in
  let headers :=
    <["Access-Control-Allow-Methods" := "GET, POST, PUT, DELETE, OPTIONS"]> headers in
  let headers :=
    <["Access-Control-Allow-Headers" := "Content-Type, Authorization"]> headers in
  if String.eqb (method req) "OPTIONS" then (SendStatus 200, headers)
  else (CorsNext, headers).

(** Line 106. *)
Definition allowedOrigins : list string :=
  ["http://localhost:3001"; "http://localhost:3002"; "https://myapp.com"].

(** [allowedOrigins.includes(origin)] *)
Definition includesOrigin (o : option string) : bool :=
  match o with
  | Some s => existsb (String.eqb s) allowedOrigins
  | None => false
  end.

(** Lines 108-122: the middleware with the list of allowed origins. *)
Definition corsAllowList (req : corsRequest) (headers : gmap string string)
  : corsOutcome * gmap string string :=
  let headers :=
    if includesOrigin (origin req)
    then <["Access-Control-Allow-Origin" := default "" (origin req)]> headers
    else headers in
  let headers :=
    <["Access-Control-Allow-Methods" := "GET, POST, PUT, DELETE, PATCH, OPTIONS"]>
      headers in
  let headers :=
    <["Access-Control-Allow-Headers" := "Content-Type, Authorization, X-Requested-With"]>
      headers in
  let headers := <["Access-Control-Allow-Credentials" := "true"]> headers in
  let headers := <["Access-Control-Max-Age" := "86400"]> headers in
  if String.eqb (method req) "OPTIONS" then (SendStatus 200, headers)
  else (CorsNext, headers).

(** The two middlewares in the order in which [app.use] registers them. *)
Definition corsChain (req : corsRequest) (headers : gmap string string)
  : corsOutcome * gmap string string :=
  match corsAllowAll req headers with
  | (SendStatus code, headers') => (SendStatus code, headers')
  | (CorsNext, headers') => corsAllowList req headers'
  end.

(** ** The token middlewares of 7.1-mongodb.js, 7.2-password-zod.js and part_006 *)

(** How these middlewares end: with a response, or by calling [next()] with
    the value they have put on [req]. *)
Inductive headerAuthOutcome (A : Type) :=
| HeaderRejected (r : response)
| HeaderAdmitted (attached : A).
Arguments HeaderRejected {A} r.
Arguments HeaderAdmitted {A} attached.

(** [authHeader.split(' ')[1]], for a header that may be [undefined]. *)
Definition secondPiece (authHeader : option string) : option string :=
  match authHeader with
  | Some a => split " " a !! 1%nat
  | None => None
  end.

Module Todo.
Section Auth.

(** The payload that [jwt.verify] returns, and its field [userId]. *)
Variable payload : Type.
Variable userId : payload -> option string.

(** [jwt.verify(token, process.env.JWT_SECRET)]: the payload or an
    exception; the secret may be [undefined]. *)
Variable jwt_verify : string -> option string -> Z -> payload + jsError.

(** 7.1-mongodb.js, lines 20-32 (the same function is in
    7.2-password-zod.js, lines 31-43): [auth], which puts [decoded.userId] on
    [req.userId]. *)
Definition auth (env_JWT_SECRET : option string) (now : Z)
  (headers_authorization : option string) : headerAuthOutcome (option string) :=
  let token := secondPiece headers_authorization in
  if negb (truthyString token)
  then HeaderRejected (mkResponse 401 [("message", "Unauthorized")])
  else
    match jwt_verify (default "" token) env_JWT_SECRET now with
    | inl decoded => HeaderAdmitted (userId decoded)
    | inr _ => HeaderRejected (mkResponse 401 [("message", "Invalid token")])
    end.

End Auth.
End Todo.

Module SimpleAuth.
Section Auth.

Variable payload : Type.
Variable jwt_verify : string -> string -> Z -> payload + jsError.

(** part_006, line 7. *)
Definition JWT_SECRET : string := "secret-key".

(** part_006, lines 15-30: [authenticateToken], which puts the decoded
    payload on [req.user]. *)
Definition authenticateToken (now : Z) (headers_authorization : option string)
  : headerAuthOutcome payload :=
  let token :=
    if truthyString headers_authorization then secondPiece headers_authorization
    else headers_authorization in
  if negb (truthyString token)
  then HeaderRejected (mkResponse 401 [("message", "Access token required")])
  else
    match jwt_verify (default "" token) JWT_SECRET now with
    | inl decoded => HeaderAdmitted decoded
    | inr _ => HeaderRejected (mkResponse 403 [("message", "Invalid or expired token")])
    end.

End Auth.
End SimpleAuth.

(** ** The routes of 4.3-express-and-http-servers.js *)

Module Kidneys.

(** A value of a JSON body. *)
Inductive json :=
| JString (s : string)
| JNumber (n : Z)
| JBoolean (b : bool).

Record jsonResponse := mkJsonResponse {
  code : Z;
  fields : list (string * json)
}.

(** The element [users[0]] of the module [./users], as the routes use it: a
    name, an identifier and the array [kidney], each kidney with its flag
    [healthy]. *)
Record patient := mkPatient {
  name : string;
  id : Z;
  kidney : list bool
}.

(** [users[0]]: [None] when the array is empty. *)
Abbreviation store := (option patient).

Definition healthyCount (kidneys : list bool) : Z :=
  Z.of_nat (length (List.filter (fun healthy => healthy) kidneys)).

Definition unhealthyCount (kidneys : list bool) : Z :=
  Z.of_nat (length (List.filter (fun healthy => negb healthy) kidneys)).

Definition notFound : jsonResponse :=
  mkJsonResponse 404 [("error", JString "User not found")].

(** The three counts that the routes [POST], [PUT] and [DELETE] report. *)
Definition counts (kidneys : list bool) : list (string * json) :=
  [("numberOfKidneys", JNumber (Z.of_nat (length kidneys)));
   ("healthyKidneys", JNumber (healthyCount kidneys));
   ("unhealthyKidneys", JNumber (unhealthyCount kidneys))].

(** Lines 8-24: [GET /]. *)
Definition getKidneys (users0 : store) : jsonResponse * store :=
  match users0 with
  | None => (notFound, users0)
  | Some p =>
      (mkJsonResponse 200
         (("name", JString (name p)) :: ("id", JNumber (id p)) :: counts (kidney p)),
       users0)
  end.

(** Lines 25-42: [POST /], as a function of [req.body.isHealthy] ([None]
    when the field is missing). *)
Definition postKidney (isHealthy : option json) (users0 : store) : jsonResponse * store :=
  match users0 with
  | None => (notFound, users0)
  | Some p =>
      match isHealthy with
      | Some (JBoolean b) =>
          let kidneys := (kidney p ++ [b])%list in
          (mkJsonResponse 200
             (("message", JString "Kidney added successfully") :: counts kidneys),
           Some (mkPatient (name p) (id p) kidneys))
      | _ => (mkJsonResponse 400 [("error", JString "isHealthy must be a boolean")], users0)
      end
  end.

(** Lines 44-62: [PUT /]. *)
Definition putKidneys (users0 : store) : jsonResponse * store :=
  match users0 with
  | None => (notFound, users0)
  | Some p =>
      if Nat.eqb (length (List.filter (fun healthy => negb healthy) (kidney p))) 0
      then (mkJsonResponse 400 [("error", JString "No unhealthy kidneys to update")], users0)
      else
        let kidneys := map (fun _ => true) (kidney p) in
        (mkJsonResponse 200
           (("message", JString "All kidneys updated to healthy") :: counts kidneys),
         Some (mkPatient (name p) (id p) kidneys))
  end.

(** Lines 64-80: [DELETE /]. *)
Definition deleteKidneys (users0 : store) : jsonResponse * store :=
  match users0 with
  | None => (notFound, users0)
  | Some p =>
      if Nat.eqb (length (List.filter (fun healthy => negb healthy) (kidney p))) 0
      then (mkJsonResponse 411 [("error", JString "No unhealthy kidneys to remove")], users0)
      else
        let kidneys := List.filter (fun healthy => healthy) (kidney p) in
        (mkJsonResponse 200
           (("message", JString "All unhealthy kidneys removed successfully")
              :: counts kidneys),
         Some (mkPatient (name p) (id p) kidneys))
  end.

(** The requests that the server accepts. *)
Inductive request :=
| Get
| Post (isHealthy : option json)
| Put
| Delete.

Definition handle (req : request) (users0 : store) : jsonResponse * store :=
  match req with
  | Get => getKidneys users0
  | Post isHealthy => postKidney isHealthy users0
  | Put => putKidneys users0
  | Delete => deleteKidneys users0
  end.

(** The value of a field of a body. *)
Fixpoint field (k : string) (fs : list (string * json)) : option json :=
  match fs with
  | [] => None
  | (k', v) :: fs' => if String.eqb k k' then Some v else field k fs'
  end.

End Kidneys.

(** The [user-id] headers of the requests that the server of
    4.4-middlewares.js has received since the window timer last fired (or
    since it started), given those received before the run. *)
Fixpoint windowRequests (evs : list event) (sofar : list (option string))
  : list (option string) :=
  match evs with
  | [] => sofar
  | Request userId :: evs' => windowRequests evs' (sofar ++ [userId])
  | TimerFires :: evs' => windowRequests evs' []
  end.

(** * Properties of the rate limiters *)

Lemma get_proto (o : object) : get o "__proto__" = Some VObjProto.
Proof. reflexivity. Qed.

Lemma inherited_None_not_proto k : inherited k = None -> k <> "__proto__".
Proof. intros H ->. discriminate H. Qed.

Lemma get_set_same (o : object) k p :
  k <> "__proto__" -> get (set o k p) k = Some (VPrim p).
Proof.
  intros Hk. unfold get, set.
  destruct (String.eqb_spec k "__proto__") as [->|_]; [congruence|].
  by rewrite lookup_insert_eq.
Qed.

Lemma get_set_other (o : object) k k' p :
  k <> k' -> get (set o k p) k' = get o k'.
Proof.
  intros Hne. unfold get, set.
  destruct (String.eqb k "__proto__"); [done|].
  by rewrite lookup_insert_ne.
Qed.

Lemma lookup_set_other (o : object) k k' p :
  k <> k' -> set o k p !! k' = o !! k'.
Proof.
  intros Hne. unfold set.
  destruct (String.eqb k "__proto__"); [done|]. by rewrite lookup_insert_ne.
Qed.

(** One call of the factory's limiter on a key whose entry is absent or a
    number: the entry becomes the successor, and the request is rejected
    exactly when the new count exceeds the maximum. *)
Lemma rateLimiter_number max (requests : object) ip n :
  get requests (propertyKey ip) = Some (VPrim (PNum n))
  \/ (get requests (propertyKey ip) = None /\ n = 0) ->
  rateLimiter max requests ip =
    ((if max <? n + 1 then Respond tooManyRequests else Next),
     <[propertyKey ip := PNum (n + 1)]> requests).
Proof.
  intros Hget. unfold rateLimiter.
  set (k := propertyKey ip) in *.
  assert (Hk : k <> "__proto__").
  { intros E. rewrite E, get_proto in Hget. destruct Hget as [?|[? _]]; discriminate. }
  assert (Hadd : addOne (orZero (get requests k)) = PNum (n + 1)).
  { destruct Hget as [->|[-> ->]]; [|reflexivity].
    unfold orZero; simpl. destruct (Z.eqb_spec n 0) as [->|_]; reflexivity. }
  rewrite Hadd, get_set_same by done. simpl.
  unfold set. destruct (String.eqb_spec k "__proto__"); [done|].
  by destruct (max <? n + 1).
Qed.

(** The limiter of 4.4-middlewares.js is the factory's limiter at the maximum
    1, up to the text of the rejection. *)
Lemma ride1Limiter_rateLimiter (table : object) userId :
  ride1Limiter table userId =
    (match fst (rateLimiter 1 table userId) with
     | Next => Next
     | Respond _ => Respond tooManyRide1Requests
     end, snd (rateLimiter 1 table userId)).
Proof.
  unfold ride1Limiter, rateLimiter.
  by destruct (greater _ 1).
Qed.

Lemma ride1Limiter_number (table : object) userId n :
  get table (propertyKey userId) = Some (VPrim (PNum n))
  \/ (get table (propertyKey userId) = None /\ n = 0) ->
  ride1Limiter table userId =
    ((if 1 <? n + 1 then Respond tooManyRide1Requests else Next),
     <[propertyKey userId := PNum (n + 1)]> table).
Proof.
  intros H. rewrite ride1Limiter_rateLimiter, (rateLimiter_number 1 _ _ n H).
  by destruct (1 <? n + 1).
Qed.

(** A call never changes the entry of another key. *)
Lemma rateLimiter_lookup_other max (requests : object) ip k' :
  propertyKey ip <> k' ->
  snd (rateLimiter max requests ip) !! k' = requests !! k'.
Proof.
  intros Hne. unfold rateLimiter.
  destruct (greater _ max); simpl; by apply lookup_set_other.
Qed.

Lemma rateLimiter_get_other max (requests : object) ip k' :
  propertyKey ip <> k' ->
  get (snd (rateLimiter max requests ip)) k' = get requests k'.
Proof.
  intros Hne. unfold rateLimiter.
  destruct (greater _ max); simpl; by apply get_set_other.
Qed.

(** The outcome of a call depends on the table only through the entry of the
    caller's key. *)
Lemma rateLimiter_outcome_local max (requests requests' : object) ip :
  get requests' (propertyKey ip) = get requests (propertyKey ip) ->
  fst (rateLimiter max requests' ip) = fst (rateLimiter max requests ip).
Proof.
  intros Hget. unfold rateLimiter. rewrite Hget.
  set (k := propertyKey ip). set (p := addOne _).
  assert (Hsame : get (set requests' k p) k = get (set requests k p) k).
  { unfold get, set. destruct (String.eqb k "__proto__"); [done|].
    by rewrite !lookup_insert_eq. }
  rewrite Hsame. by destruct (greater _ max).
Qed.

(** *** Rejected requests are counted *)

(** C4, as stated, fails: with the maximum 5 and the counter of an address
    already at 5, the call rejects the request and the counter becomes 6; the
    same holds for the limiter of 4.4-middlewares.js at its maximum 1. *)
Lemma rejected_request_changes_counter :
  let requests : object := {[ "10.0.0.1" := PNum 5 ]} in
  let table : object := {[ "u1" := PNum 1 ]} in
  (fst (rateLimiter 5 requests (Some "10.0.0.1")) = Respond tooManyRequests
   /\ get requests "10.0.0.1" = Some (VPrim (PNum 5))
   /\ get (snd (rateLimiter 5 requests (Some "10.0.0.1"))) "10.0.0.1"
      = Some (VPrim (PNum 6)))
  /\ (fst (ride1Limiter table (Some "u1")) = Respond tooManyRide1Requests
      /\ get table "u1" = Some (VPrim (PNum 1))
      /\ get (snd (ride1Limiter table (Some "u1"))) "u1" = Some (VPrim (PNum 2))).
Proof. vm_compute. repeat split. Qed.

(** C4, amended: when the counter of the caller is a number at or above the
    maximum, the call rejects the request with status 429 and the counter is
    incremented by one all the same (the increment precedes the comparison);
    this holds for the factory's limiter at every maximum and for the
    limiter of 4.4-middlewares.js at its maximum 1. *)
Theorem rejected_request_is_counted max (requests : object) ip n :
  get requests (propertyKey ip) = Some (VPrim (PNum n)) ->
  max <= n ->
  rateLimiter max requests ip
    = (Respond tooManyRequests, <[propertyKey ip := PNum (n + 1)]> requests)
  /\ get (snd (rateLimiter max requests ip)) (propertyKey ip)
     = Some (VPrim (PNum (n + 1)))
  /\ (max = 1 ->
      ride1Limiter requests ip
        = (Respond tooManyRide1Requests,
           <[propertyKey ip := PNum (n + 1)]> requests)).
Proof.
  intros Hget Hmax.
  assert (Hlt : (max <? n + 1) = true) by (apply Z.ltb_lt; lia).
  pose proof (rateLimiter_number max requests ip n (or_introl Hget)) as Hstep.
  rewrite Hlt in Hstep. split; [exact Hstep|]. split.
  - rewrite Hstep. simpl. unfold get.
    destruct (String.eqb_spec (propertyKey ip) "__proto__") as [E|_].
    + rewrite E, get_proto in Hget. discriminate.
    + by rewrite lookup_insert_eq.
  - intros ->.
    rewrite (ride1Limiter_number requests ip n (or_introl Hget)).
    by rewrite Hlt.
Qed.

Lemma rejected_request_is_counted_witness :
  rateLimiter 5 {[ "10.0.0.1" := PNum 5 ]} (Some "10.0.0.1")
    = (Respond tooManyRequests,
       <[ "10.0.0.1" := PNum 6 ]> {[ "10.0.0.1" := PNum 5 ]}).
Proof.
  refine (proj1 (rejected_request_is_counted 5 {[ "10.0.0.1" := PNum 5 ]}
                   (Some "10.0.0.1") 5 _ _)).
  - reflexivity.
  - lia.
Defined.

(** *** Principals do not share counters *)

(** C9: for two distinct principal identifiers [a] and [b], a call of the
    limiter for [a] leaves the entry of [b] as it was, and the outcome of a
    call for [b] is the same before and after the call for [a]. *)
Theorem other_principal_untouched (table : object) (a b : string) :
  a <> b ->
  let table' := snd (ride1Limiter table (Some a)) in
  table' !! b = table !! b
  /\ get table' b = get table b
  /\ fst (ride1Limiter table' (Some b)) = fst (ride1Limiter table (Some b))
  /\ forall max,
       let requests' := snd (rateLimiter max table (Some a)) in
       requests' !! b = table !! b
       /\ fst (rateLimiter max requests' (Some b))
          = fst (rateLimiter max table (Some b)).
Proof.
  intros Hne. cbv zeta.
  assert (Hfactory : forall max,
    snd (rateLimiter max table (Some a)) !! b = table !! b
    /\ get (snd (rateLimiter max table (Some a))) b = get table b
    /\ fst (rateLimiter max (snd (rateLimiter max table (Some a))) (Some b))
       = fst (rateLimiter max table (Some b))).
  { intros max.
    pose proof (rateLimiter_lookup_other max table (Some a) b Hne) as Hl.
    pose proof (rateLimiter_get_other max table (Some a) b Hne) as Hg.
    repeat split; try done.
    by apply rateLimiter_outcome_local. }
  destruct (Hfactory 1) as (Hl & Hg & Ho).
  rewrite !ride1Limiter_rateLimiter. simpl.
  repeat split; try done.
  - by rewrite Ho.
  - apply Hfactory.
  - apply Hfactory.
Qed.

Lemma other_principal_untouched_witness :
  let table : object := {[ "u2" := PNum 1 ]} in
  snd (ride1Limiter table (Some "u1")) !! "u2" = table !! "u2".
Proof.
  refine (proj1 (other_principal_untouched {[ "u2" := PNum 1 ]} "u1" "u2" _)).
  discriminate.
Defined.

(** *** Windows *)

Lemma run_request userId evs (table : object) :
  run (Request userId :: evs) table =
    (fst (ride1Limiter table userId)
       :: fst (run evs (snd (ride1Limiter table userId))),
     snd (run evs (snd (ride1Limiter table userId)))).
Proof.
  cbn [run]. destruct (ride1Limiter table userId) as [o table'].
  cbn [fst snd]. by destruct (run evs table').
Qed.

Lemma run_timer evs (table : object) : run (TimerFires :: evs) table = run evs ∅.
Proof. reflexivity. Qed.

Lemma run_app evs1 evs2 (table : object) :
  run (evs1 ++ evs2) table =
    ((fst (run evs1 table) ++ fst (run evs2 (snd (run evs1 table))))%list,
     snd (run evs2 (snd (run evs1 table)))).
Proof.
  revert table. induction evs1 as [|[u|] evs1 IH]; intros table; simpl.
  - by destruct (run evs2 table).
  - destruct (ride1Limiter table u) as [o table'].
    rewrite IH. by destruct (run evs1 table').
  - apply IH.
Qed.

Lemma runLimiter_app max ips1 ips2 (requests : object) :
  runLimiter max (ips1 ++ ips2) requests =
    ((fst (runLimiter max ips1 requests)
       ++ fst (runLimiter max ips2 (snd (runLimiter max ips1 requests))))%list,
     snd (runLimiter max ips2 (snd (runLimiter max ips1 requests)))).
Proof.
  revert requests. induction ips1 as [|ip ips1 IH]; intros requests; simpl.
  - by destruct (runLimiter max ips2 requests).
  - destruct (rateLimiter max requests ip) as [o requests'].
    rewrite IH. by destruct (runLimiter max ips1 requests').
Qed.

(** In a table that the factory's limiter has filled from [{}], the entry of
    a key that [Object.prototype] does not define is the number of requests
    counted under it. *)
Lemma runLimiter_counts max ips k :
  inherited k = None ->
  snd (runLimiter max ips ∅) !! k
    = if requestsOf k ips =? 0 then None else Some (PNum (requestsOf k ips)).
Proof.
  intros Hk. induction ips as [|ip ips IH] using rev_ind; [done|].
  rewrite runLimiter_app. cbn [snd runLimiter].
  set (requests := snd (runLimiter max ips ∅)) in *.
  destruct (rateLimiter max requests ip) as [o requests'] eqn:Hstep. cbn [snd].
  assert (Hreq' : requests' = snd (rateLimiter max requests ip)) by by rewrite Hstep.
  unfold requestsOf in *. rewrite filter_app, length_app. cbn [filter list_filter].
  destruct (decide (propertyKey ip = k)) as [Heq|Hne].
  - cbn [length]. set (n := Z.of_nat (length _)) in *.
    assert (Hget : get requests (propertyKey ip) = Some (VPrim (PNum n))
                   \/ (get requests (propertyKey ip) = None /\ n = 0)).
    { rewrite Heq. unfold get.
      destruct (String.eqb_spec k "__proto__") as [->|_]; [discriminate Hk|].
      rewrite IH, Hk. destruct (Z.eqb_spec n 0); auto. }
    rewrite Hreq', (rateLimiter_number max requests ip n Hget), Heq. cbn [snd].
    rewrite lookup_insert_eq.
    replace (Z.of_nat (length _ + 1)) with (n + 1) by (subst n; lia).
    destruct (Z.eqb_spec (n + 1) 0); [lia|done].
  - cbn [length]. rewrite Nat.add_0_r.
    by rewrite Hreq', rateLimiter_lookup_other.
Qed.

(** The window boundary for the factory's limiter and a key that
    [Object.prototype] does not define: among the requests that reach the
    limiter after its table was created, one is admitted exactly when fewer
    than the maximum of the earlier ones were counted under its key,
    whatever the other principals send in between. *)
Lemma window_boundary max earlier ip :
  inherited (propertyKey ip) = None ->
  fst (rateLimiter max (snd (runLimiter max earlier ∅)) ip)
    = if requestsOf (propertyKey ip) earlier <? max then Next
      else Respond tooManyRequests.
Proof.
  intros Hk.
  pose proof (runLimiter_counts max earlier _ Hk) as Hcount.
  set (n := requestsOf (propertyKey ip) earlier) in *.
  assert (Hn : 0 <= n) by (subst n; unfold requestsOf; lia).
  rewrite (rateLimiter_number max _ ip n).
  - cbn [fst]. destruct (Z.ltb_spec max (n + 1)), (Z.ltb_spec n max); done || lia.
  - unfold get.
    destruct (String.eqb_spec (propertyKey ip) "__proto__") as [E|_];
      [rewrite E in Hk; discriminate Hk|].
    rewrite Hcount, Hk. destruct (Z.eqb_spec n 0); auto.
Qed.

(** The window of 4.4-middlewares.js for an identifier that
    [Object.prototype] does not define: the first request is admitted, the
    second one rejected, and after the timer has fired the next one is
    admitted with its counter at 1. *)
Lemma ride1_window userId :
  inherited (propertyKey userId) = None ->
  run [Request userId; Request userId; TimerFires; Request userId] ∅
    = ([Next; Respond tooManyRide1Requests; Next],
       {[ propertyKey userId := PNum 1 ]}).
Proof.
  intros Hk. pose proof (inherited_None_not_proto _ Hk) as Hp.
  assert (Hfresh : ride1Limiter ∅ userId = (Next, {[ propertyKey userId := PNum 1 ]})).
  { rewrite (ride1Limiter_number ∅ userId 0); [done|].
    right. split; [|done]. unfold get.
    destruct (String.eqb_spec (propertyKey userId) "__proto__"); [done|].
    by rewrite lookup_empty. }
  rewrite !run_request, run_timer, run_request, Hfresh. cbn [fst snd run].
  rewrite (ride1Limiter_number _ userId 1); [done|].
  left. unfold get.
  destruct (String.eqb_spec (propertyKey userId) "__proto__"); [done|].
  by rewrite lookup_singleton_eq.
Qed.

(** C3 fails on the code for an identifier that names a member of
    [Object.prototype]: with the [user-id] header [toString], three requests
    in one window are all admitted (the maximum is 1), and the entry of the
    table is a text, not a count. *)
Theorem inherited_identifier_never_limited :
  run [Request (Some "toString"); Request (Some "toString");
       Request (Some "toString")] ∅
  = ([Next; Next; Next],
     {[ "toString" := PStr "function toString() { [native code] }111" ]}).
Proof. vm_compute. reflexivity. Qed.

(** *** The texts of a table *)

Lemma startsWith_append p s t :
  startsWith p s = true -> startsWith p (s +:+ t) = true.
Proof.
  revert s. induction p as [|c p IH]; intros [|d s];
    cbn [startsWith String.append]; try done.
  intros [Hc Hp]%andb_prop.
  change (String d s +:+ t) with (String d (s +:+ t)).
  cbv iota. by rewrite Hc, (IH s Hp).
Qed.

(** The value that a call writes is a number or a text that starts with
    ["function "], unless the key is [__proto__], whose write is ignored. *)
Lemma written_value (o : object) k :
  textsAreBuiltin o -> k <> "__proto__" ->
  match addOne (orZero (get o k)) with
  | PNum _ => True
  | PStr s => startsWith "function " s = true
  end.
Proof.
  intros Ho Hk. unfold get.
  destruct (String.eqb_spec k "__proto__"); [done|].
  destruct (o !! k) as [[m|s]|] eqn:Hl.
  - assert (E : addOne (orZero (Some (VPrim (PNum m)))) = PNum (m + 1)).
    { unfold orZero, truthy. destruct (Z.eqb_spec m 0) as [->|]; reflexivity. }
    by rewrite E.
  - assert (E : addOne (orZero (Some (VPrim (PStr s))))
                = if String.eqb s "" then PNum 1 else PStr (s +:+ "1")).
    { unfold orZero, truthy. by destruct (String.eqb s ""). }
    rewrite E. destruct (String.eqb s ""); [done|].
    apply startsWith_append. by apply (Ho k).
  - unfold inherited. destruct (String.eqb_spec k "__proto__"); [done|].
    destruct (assoc k objectPrototypeFunctions) as [fname|]; [|done].
    reflexivity.
Qed.

Lemma rateLimiter_texts max (requests : object) ip :
  textsAreBuiltin requests -> textsAreBuiltin (snd (rateLimiter max requests ip)).
Proof.
  intros Ho k s. unfold rateLimiter.
  set (key := propertyKey ip). set (p := addOne _).
  assert (Hset : set requests key p !! k = Some (PStr s) ->
                 startsWith "function " s = true).
  { unfold set. destruct (String.eqb_spec key "__proto__") as [|Hk]; [apply Ho|].
    destruct (decide (key = k)) as [<-|Hne].
    - rewrite lookup_insert_eq. intros [= Hp].
      pose proof (written_value requests key Ho Hk) as Hw.
      fold p in Hw. by rewrite Hp in Hw.
    - rewrite lookup_insert_ne by done. apply Ho. }
  by destruct (greater _ max).
Qed.

(** Whatever the server of 4.4-middlewares.js has received since it started,
    every text in its table starts with ["function "]: the comparison with
    the maximum sees a number or a text that converts to NaN. *)
Lemma run_texts evs : textsAreBuiltin (snd (run evs ∅)).
Proof.
  assert (Hgen : forall table : object,
            textsAreBuiltin table -> textsAreBuiltin (snd (run evs table))).
  { induction evs as [|[u|] evs IH]; intros table Ht.
    - done.
    - rewrite run_request. cbn [snd]. apply IH.
      rewrite ride1Limiter_rateLimiter. cbn [snd]. by apply rateLimiter_texts.
    - rewrite run_timer. apply IH. intros k s. by rewrite lookup_empty. }
  apply Hgen. intros k s. by rewrite lookup_empty.
Qed.

(** *** Requests without a [user-id] header *)

Lemma get_of_lookup (o : object) k :
  inherited k = None ->
  get o k = VPrim <$> o !! k.
Proof.
  intros Hk. unfold get.
  destruct (String.eqb_spec k "__proto__") as [->|_]; [discriminate Hk|].
  destruct (o !! k); [done|]. by rewrite Hk.
Qed.

Lemma ride1Limiter_lookup_other (table : object) userId k :
  propertyKey userId <> k ->
  snd (ride1Limiter table userId) !! k = table !! k.
Proof.
  intros Hne. rewrite ride1Limiter_rateLimiter. cbn [snd].
  by apply rateLimiter_lookup_other.
Qed.

(** A request turns an absent or counted entry into a present one. *)
Lemma ride1Limiter_counted_present (table : object) userId :
  inherited (propertyKey userId) = None ->
  counted table (propertyKey userId) ->
  present (snd (ride1Limiter table userId)) (propertyKey userId).
Proof.
  intros Hk Hc. unfold counted in Hc.
  destruct (table !! propertyKey userId) as [[n|s]|] eqn:Hl; [| done |].
  - rewrite (ride1Limiter_number table userId n).
    + exists (n + 1). cbn [snd]. rewrite lookup_insert_eq. split; [done|lia].
    + left. by rewrite get_of_lookup, Hl.
  - rewrite (ride1Limiter_number table userId 0).
    + exists 1. cbn [snd]. by rewrite lookup_insert_eq.
    + right. by rewrite get_of_lookup, Hl.
Qed.

Lemma present_counted (o : object) k : present o k -> counted o k.
Proof. intros (n & Hl & Hn). unfold counted. by rewrite Hl. Qed.

Lemma ride1Limiter_present (table : object) userId k :
  inherited k = None ->
  present table k -> present (snd (ride1Limiter table userId)) k.
Proof.
  intros Hk Hp. destruct (decide (propertyKey userId = k)) as [<-|Hne].
  - by apply ride1Limiter_counted_present, present_counted.
  - destruct Hp as (n & Hl & Hn). exists n.
    by rewrite ride1Limiter_lookup_other.
Qed.




Lemma ride1Limiter_present_rejects (table : object) userId :
  inherited (propertyKey userId) = None ->
  present table (propertyKey userId) ->
  fst (ride1Limiter table userId) = Respond tooManyRide1Requests.
Proof.
  intros Hk (n & Hl & Hn).
  rewrite (ride1Limiter_number table userId n).
  - cbn [fst]. destruct (Z.ltb_spec 1 (n + 1)); [done|lia].
  - left. by rewrite get_of_lookup, Hl.
Qed.



(** * Properties of the error stages *)

(** The error stage of part_008 sends the same body whatever the exception,
    and hands the message of the exception to [console.error]. *)
Lemma errorHandler_generic (err err' : jsError) :
  sent (errorHandler err) = sent (errorHandler err')
  /\ sent (errorHandler err) = mkResponse 500 [("error", "Internal server error")]
  /\ logged (errorHandler err) = [["Error:"; message err]].
Proof. done. Qed.

(** The error stage of 4.4-middlewares.js sends the message of the
    exception and logs nothing. *)
Lemma ride1ErrorHandler_sends_message (err : jsError) :
  sent (ride1ErrorHandler err) = mkResponse 500 [("error", message err)]
  /\ logged (ride1ErrorHandler err) = [].
Proof. done. Qed.


(** * Properties of the credential resolver *)

Lemma split_not_nil sep s : split sep s <> [].
Proof.
  destruct s as [|c s]; simpl; [done|].
  destruct (Ascii.eqb c sep); [done|]. by destruct (split sep s).
Qed.

(** A header that starts with ["Bearer "] has a second piece. *)
Lemma bearer_second_piece a :
  startsWith "Bearer " a = true -> exists t, split " " a !! 1%nat = Some t.
Proof.
  intros Hp.
  destruct a as [|c1 [|c2 [|c3 [|c4 [|c5 [|c6 [|c7 rest]]]]]]];
    cbn [startsWith] in Hp; rewrite ?andb_false_r in Hp; try discriminate Hp.
  repeat (apply andb_prop in Hp; destruct Hp as [?%Ascii.eqb_eq Hp]).
  subst.
  cbn. destruct (split " " rest) as [|t ts] eqn:Hs.
  - by destruct (split_not_nil " " rest).
  - by exists t.
Qed.

(** With a non-empty cookie token, the cookie token is selected, whatever the
    headers and the query carry. *)
Lemma cookie_token_selected (req : request) :
  truthyString (cookies_token req) = true ->
  resolveToken req = cookies_token req /\ resolve_spec req = cookies_token req.
Proof.
  intros Hc. unfold resolveToken, resolve_spec, candidates. simpl.
  by rewrite Hc.
Qed.

(** Outside of the case of a bearer header whose second piece is empty, the
    code selects the first non-empty candidate. *)
Lemma resolveToken_first_non_empty (req : request) :
  truthyString (cookies_token req) = true \/ bearerCandidate req <> Some "" ->
  resolveToken req = resolve_spec req.
Proof.
  intros H. unfold resolveToken, resolve_spec, candidates.
  cbn [firstNonEmpty].
  destruct (truthyString (cookies_token req)) eqn:Hc; [done|].
  destruct H as [H|H]; [done|].
  unfold bearerCandidate in *.
  destruct (headers_authorization req) as [a|]; cbn [default].
  - destruct (startsWith "Bearer " a) eqn:Hp.
    + destruct (bearer_second_piece a Hp) as [t Ht]. rewrite Ht in *.
      cbn [truthyString]. destruct (String.eqb_spec t ""); [congruence|done].
    + cbn [truthyString].
      destruct (truthyString (headers_x_auth_token req)); [done|].
      by destruct (truthyString (query_token req)).
  - cbn [truthyString].
    destruct (truthyString (headers_x_auth_token req)); [done|].
    by destruct (truthyString (query_token req)).
Qed.

(** C1 fails on the code: a request whose [Authorization] header is
    ["Bearer  abc"] (two spaces) and whose [x-auth-token] header is ["tok"]
    has the first non-empty candidate ["tok"], but the middleware leaves the
    chain of conditionals with the empty string and answers that no token
    was provided, without calling the verifier. *)
Theorem bearer_header_hides_later_sources :
  let req := mkRequest None (Some "Bearer  abc") (Some "tok") None in
  candidates req = [None; Some ""; Some "tok"; None]
  /\ resolve_spec req = Some "tok"
  /\ resolveToken req = Some ""
  /\ forall jwt_verify env_JWT_SECRET users now,
       authenticateToken jwt_verify env_JWT_SECRET users now req
       = ([], Rejected noTokenResponse).
Proof. repeat split. Qed.

(** * Properties of [authenticateToken] *)

(** When no transport yields a token, the chain of conditionals ends with a
    falsy [token]. *)
Lemma no_candidate_no_token (req : request) :
  Forall (fun c => truthyString c = false) (candidates req) ->
  truthyString (resolveToken req) = false.
Proof.
  intros Hall. unfold candidates in Hall.
  apply Forall_cons in Hall as [Hc Hall].
  apply Forall_cons in Hall as [Hb Hall].
  apply Forall_cons in Hall as [Hx Hall].
  apply Forall_cons in Hall as [Hq _].
  unfold resolveToken, bearerCandidate in *. rewrite Hc, Hx, Hq.
  destruct (headers_authorization req) as [a|]; [|done].
  cbn [default]. by destruct (startsWith "Bearer " a).
Qed.

(** C5: when none of the four sources (cookie, bearer header, custom header,
    query parameter) yields a token, the middleware answers 401 with the
    message that no token was provided, and calls neither [jwt.verify] nor
    the user lookup nor [next()]: no later stage runs, and the route sends
    that same response. *)
Theorem no_credential_short_circuit
  (jwt_verify : string -> string -> Z -> verifyResult) (toISOString : Z -> string)
  (env_JWT_SECRET : option string) (users : list user) (now : Z) (req : request) :
  Forall (fun c => truthyString c = false) (candidates req) ->
  authenticateToken jwt_verify env_JWT_SECRET users now req
    = ([], Rejected (report NoCredential))
  /\ routeMe jwt_verify toISOString env_JWT_SECRET users now req
     = ([], Sends (report NoCredential)).
Proof.
  intros Hall. apply no_candidate_no_token in Hall.
  unfold routeMe, authenticateToken, authenticateWith.
  by rewrite Hall.
Qed.

Lemma no_credential_short_circuit_witness :
  authenticateToken toyVerify None [mkUser "alice" "pw"] 1000
    (mkRequest None (Some "Basic YWxpY2U6cHc=") (Some "") None)
  = ([], Rejected (report NoCredential)).
Proof.
  refine (proj1 (no_credential_short_circuit toyVerify (fun _ => "") None
                   [mkUser "alice" "pw"] 1000
                   (mkRequest None (Some "Basic YWxpY2U6cHc=") (Some "") None) _)).
  repeat constructor.
Defined.

(** The middleware past the resolver, for a request with a non-empty token. *)
Lemma authenticateWith_token jwt_verify findUser secret now (req : request) token :
  resolveToken req = Some token -> token <> "" ->
  authenticateWith jwt_verify findUser secret now req =
    match jwt_verify token secret now with
    | Decoded decoded =>
        match findUser (decoded_username decoded) with
        | Found u =>
            ([CallVerify token secret; CallFind (decoded_username decoded); CallNext],
             Continue [("user", AUser u); ("tokenData", ATokenData decoded)])
        | NotFound =>
            ([CallVerify token secret; CallFind (decoded_username decoded)],
             Rejected (report PrincipalNotFound))
        | LookupThrows error =>
            ([CallVerify token secret; CallFind (decoded_username decoded)],
             Rejected (catchClause error))
        end
    | Throws error => ([CallVerify token secret], Rejected (catchClause error))
    end.
Proof.
  intros Htok Hne. unfold authenticateWith. rewrite Htok.
  cbn [truthyString]. destruct (String.eqb_spec token ""); [done|].
  reflexivity.
Qed.

(** The lookup in the array [users] never raises. *)
Lemma usersFind_never_throws users wanted error :
  usersFind users wanted <> LookupThrows error.
Proof. unfold usersFind. by destruct (find _ users). Qed.

(** With a non-empty cookie token, the token handed to [jwt.verify] is the
    cookie token, whatever the [Authorization] header carries. *)
Lemma cookie_token_verified jwt_verify env_JWT_SECRET users now (req : request) :
  truthyString (cookies_token req) = true ->
  exists token,
    cookies_token req = Some token
    /\ hd_error (fst (authenticateToken jwt_verify env_JWT_SECRET users now req))
       = Some (CallVerify token (JWT_SECRET env_JWT_SECRET)).
Proof.
  intros Hc. destruct (cookie_token_selected req Hc) as [Hres _].
  destruct (cookies_token req) as [token|] eqn:Hcookie; [|done].
  exists token. split; [done|].
  assert (Hne : token <> "").
  { intros ->. discriminate Hc. }
  unfold authenticateToken.
  rewrite (authenticateWith_token _ _ _ _ req token Hres Hne).
  destruct (jwt_verify _ _ _); [|done].
  by destruct (usersFind _ _).
Qed.

(** The stand-in library keeps the contract. *)
Lemma toy_contract : JwtContract toyVerify toySignedWith toyExpiry.
Proof.
  split; intros token secret now; unfold toyVerify, toySignedWith, toyExpiry.
  - intros Hs.
    destruct (split "." token) as [|u [|e [|sig [|extra rest]]]]; eauto.
    destruct (String.eqb sig secret); [|eauto].
    destruct (parseDecimal e) as [n|]; [|eauto].
    rewrite andb_true_l, bool_decide_eq_false in Hs. by destruct Hs.
  - intros e0 Hs He Hle.
    destruct (split "." token) as [|u [|e [|sig [|extra rest]]]]; try done.
    destruct (String.eqb sig secret); [|done].
    rewrite He. destruct (Z.leb_spec e0 now); [eauto|lia].
  - intros e0 Hs He Hlt.
    destruct (split "." token) as [|u [|e [|sig [|extra rest]]]]; try done.
    destruct (String.eqb sig secret); [|done].
    rewrite He. destruct (Z.leb_spec e0 now); [lia|eauto].
Qed.

Section Verification.

Variable jwt_verify : string -> string -> Z -> verifyResult.
Variable signedWith : string -> string -> bool.
Variable expiry : string -> option Z.
Hypothesis contract : JwtContract jwt_verify signedWith expiry.

Variable env_JWT_SECRET : option string.
Variable users : list user.
Variable now : Z.

(** A thrown error is reported by its name alone. *)
Lemma thrown_error_reported (req : request) token error :
  resolveToken req = Some token -> token <> "" ->
  jwt_verify token (JWT_SECRET env_JWT_SECRET) now = Throws error ->
  authenticateToken jwt_verify env_JWT_SECRET users now req
    = ([CallVerify token (JWT_SECRET env_JWT_SECRET)],
       Rejected (if String.eqb (name error) "TokenExpiredError"
                 then report ExpiredToken else report MalformedToken)).
Proof using Type.
  intros Htok Hne Hv. unfold authenticateToken.
  by rewrite (authenticateWith_token _ _ _ _ req token Htok Hne), Hv.
Qed.

(** C2: the candidate token that the resolver selects is classified by the
    verification step as follows.  Signed with the server's secret and with
    an expiry that the clock has reached: 401 "Token expired".  Not well
    formed or not signed with the server's secret, whatever its expiry:
    401 "Invalid token".  The two responses differ, and each of them
    differs from the success of a token that is well signed and not yet
    expired, for which the lookup stage is called. *)
Theorem verification_classification (req : request) token :
  resolveToken req = Some token -> token <> "" ->
  let secret := JWT_SECRET env_JWT_SECRET in
  let result := authenticateToken jwt_verify env_JWT_SECRET users now req in
  (forall e, signedWith token secret = true -> expiry token = Some e -> e <= now ->
     result = ([CallVerify token secret], Rejected (report ExpiredToken)))
  /\ (signedWith token secret = false ->
        result = ([CallVerify token secret], Rejected (report MalformedToken)))
  /\ (forall e, signedWith token secret = true -> expiry token = Some e -> now < e ->
        exists decoded, nth_error (fst result) 1
                        = Some (CallFind (decoded_username decoded))
                        /\ snd result <> Rejected (report ExpiredToken)
                        /\ snd result <> Rejected (report MalformedToken))
  /\ report ExpiredToken <> report MalformedToken.
Proof using contract.
  intros Htok Hne secret result. subst result secret.
  repeat split.
  - intros e Hs He Hle.
    destruct (verify_expired _ _ _ contract _ _ now e Hs He Hle) as (err & Hv & Hn).
    rewrite (thrown_error_reported req token err Htok Hne Hv). by rewrite Hn.
  - intros Hs.
    destruct (verify_bad_signature _ _ _ contract _ _ now Hs) as (err & Hv & Hn).
    rewrite (thrown_error_reported req token err Htok Hne Hv). by rewrite Hn.
  - intros e Hs He Hlt.
    destruct (verify_valid _ _ _ contract _ _ now e Hs He Hlt) as (d & Hv & Hd).
    exists d. unfold authenticateToken.
    rewrite (authenticateWith_token _ _ _ _ req token Htok Hne), Hv.
    destruct (usersFind users (decoded_username d)) eqn:Hf;
      [| | by destruct (usersFind_never_throws _ _ _ Hf)];
      repeat split; try reflexivity; intros E; inversion E.
  - discriminate.
Qed.

End Verification.

Lemma verification_classification_witness :
  authenticateToken toyVerify None [mkUser "alice" "pw"] 3000
    (mkRequest (Some "alice.2000.your-secret-key") None None None)
  = ([CallVerify "alice.2000.your-secret-key" "your-secret-key"],
     Rejected (report ExpiredToken))
  /\ authenticateToken toyVerify None [mkUser "alice" "pw"] 1000
       (mkRequest (Some "alice.2000.forged") None None None)
     = ([CallVerify "alice.2000.forged" "your-secret-key"],
        Rejected (report MalformedToken)).
Proof.
  split.
  - refine (proj1 (verification_classification toyVerify toySignedWith toyExpiry
                     toy_contract None [mkUser "alice" "pw"] 3000
                     (mkRequest (Some "alice.2000.your-secret-key") None None None)
                     "alice.2000.your-secret-key" _ _) 2000 _ _ _);
      [reflexivity | discriminate | reflexivity | reflexivity | lia].
  - refine (proj1 (proj2 (verification_classification toyVerify toySignedWith
                     toyExpiry toy_contract None [mkUser "alice" "pw"] 1000
                     (mkRequest (Some "alice.2000.forged") None None None)
                     "alice.2000.forged" _ _)) _);
      [reflexivity | discriminate | reflexivity].
Defined.

(** *** The lookup stage *)

Lemma usersFind_no_match users wanted :
  (forall u, In u users -> Some (username u) <> wanted) ->
  usersFind users wanted = NotFound.
Proof.
  intros Hno. unfold usersFind.
  destruct (find _ users) as [u|] eqn:Hf; [|done].
  apply find_some in Hf as [Hin Heq]. destruct wanted as [n|]; [|done].
  apply String.eqb_eq in Heq. destruct (Hno u Hin). by rewrite Heq.
Qed.





(** *** The request context *)

(** C8, as stated, fails: for an admitted request the middleware attaches the
    decoded token as [req.tokenData] next to [req.user], and the handler of
    [GET /me] sends the expiry that it reads there. *)
Lemma token_data_attached :
  let req := mkRequest (Some "alice.2000.your-secret-key") None None None in
  let iso := fun ms : Z => if ms =? 2000000 then "1970-01-01T00:33:20.000Z" else "" in
  snd (authenticateToken toyVerify None [mkUser "alice" "pw"] 1000 req)
    = Continue [("user", AUser (mkUser "alice" "pw"));
                ("tokenData", ATokenData (mkTokenData (Some "alice") (Some 2000)))]
  /\ snd (routeMe toyVerify iso None [mkUser "alice" "pw"] 1000 req)
     = Sends (mkResponse 200 [("username", "alice");
                              ("tokenExpiry", "1970-01-01T00:33:20.000Z")]).
Proof. repeat split. Qed.

(** C8, amended: for every request that the middleware admits, what it
    attaches to the request is exactly two properties: [user], the element
    of [users] whose [username] is the one of the token, and [tokenData],
    the payload that [jwt.verify] decoded from the selected token; it
    attaches no raw token string. *)
Theorem admitted_context
  (jwt_verify : string -> string -> Z -> verifyResult)
  (env_JWT_SECRET : option string) (users : list user) (now : Z)
  (req : request) calls attached :
  authenticateToken jwt_verify env_JWT_SECRET users now req
    = (calls, Continue attached) ->
  exists token u decoded,
    resolveToken req = Some token
    /\ jwt_verify token (JWT_SECRET env_JWT_SECRET) now = Decoded decoded
    /\ In u users
    /\ decoded_username decoded = Some (username u)
    /\ attached = [("user", AUser u); ("tokenData", ATokenData decoded)]
    /\ calls = [CallVerify token (JWT_SECRET env_JWT_SECRET);
                CallFind (decoded_username decoded); CallNext].
Proof.
  unfold authenticateToken. intros Hrun.
  destruct (resolveToken req) as [token|] eqn:Htok;
    [|unfold authenticateWith in Hrun; by rewrite Htok in Hrun].
  destruct (String.eqb_spec token "") as [->|Hne];
    [unfold authenticateWith in Hrun; by rewrite Htok in Hrun|].
  rewrite (authenticateWith_token _ _ _ _ req token Htok Hne) in Hrun.
  destruct (jwt_verify _ _ _) as [decoded|error] eqn:Hv; [|done].
  unfold usersFind in Hrun.
  destruct (find _ users) as [u|] eqn:Hf; [|done].
  injection Hrun as <- <-.
  apply find_some in Hf as [Hin Heq].
  exists token, u, decoded. repeat split; try done.
  destruct (decoded_username decoded) as [n|]; [|done].
  apply String.eqb_eq in Heq. by rewrite Heq.
Qed.

Lemma admitted_context_witness :
  exists token u decoded,
    resolveToken (mkRequest (Some "alice.2000.your-secret-key") None None None)
      = Some token
    /\ toyVerify token (JWT_SECRET None) 1000 = Decoded decoded
    /\ In u [mkUser "alice" "pw"]
    /\ decoded_username decoded = Some (username u)
    /\ [("user", AUser (mkUser "alice" "pw"));
        ("tokenData", ATokenData (mkTokenData (Some "alice") (Some 2000)))]
       = [("user", AUser u); ("tokenData", ATokenData decoded)]
    /\ [CallVerify "alice.2000.your-secret-key" "your-secret-key";
        CallFind (Some "alice"); CallNext]
       = [CallVerify token (JWT_SECRET None);
          CallFind (decoded_username decoded); CallNext].
Proof.
  apply (admitted_context toyVerify None [mkUser "alice" "pw"] 1000
           (mkRequest (Some "alice.2000.your-secret-key") None None None)).
  reflexivity.
Defined.

(** * Properties of the public routes of 6.1-http-deepdive.js *)

Lemma find_app_Some {A} (f : A -> bool) (l l' : list A) x :
  find f l = Some x -> find f (l ++ l') = Some x.
Proof.
  induction l as [|a l IH]; simpl; [done|]. by destruct (f a).
Qed.


(** [/signup] only ever appends to [users]. *)
Lemma signup_extends users body :
  exists added, snd (signup users body) = (users ++ added)%list.
Proof.
  unfold signup. destruct (_ || _).
  - exists []. by rewrite app_nil_r.
  - destruct (find _ users).
    + exists []. by rewrite app_nil_r.
    + by eexists.
Qed.

Lemma signups_extends users bodies :
  exists added, signups users bodies = (users ++ added)%list.
Proof.
  revert users. induction bodies as [|body bodies IH]; intros users; simpl.
  - exists []. by rewrite app_nil_r.
  - destruct (signup_extends users body) as [a1 ->].
    destruct (IH (users ++ a1)%list) as [a2 ->].
    exists (a1 ++ a2)%list. by rewrite app_assoc.
Qed.



(** X2: a later [/signup] never replaces or hides an account: a user that the
    lookup of [authenticateToken] finds under a name is found under that name
    unchanged after any further calls of [/signup], also calls that reuse the
    name. *)
Theorem signups_keep_accounts (users : list user) (bodies : list credentials)
  (name : string) (u : user) :
  usersFind users (Some name) = Found u ->
  usersFind (signups users bodies) (Some name) = Found u.
Proof.
  intros Hf. destruct (signups_extends users bodies) as [added ->].
  unfold usersFind in *.
  destruct (find _ users) as [u'|] eqn:Hfind; [|done].
  by rewrite (find_app_Some _ _ added _ Hfind).
Qed.

Lemma signups_keep_accounts_witness :
  usersFind (signups [mkUser "alice" "pw"]
               [mkCredentials (Some "alice") (Some "other");
                mkCredentials (Some "bob") (Some "pw2")]) (Some "alice")
  = Found (mkUser "alice" "pw").
Proof.
  apply (signups_keep_accounts [mkUser "alice" "pw"]). reflexivity.
Defined.

Section SigninProperties.

Variable jwt_sign : string -> string -> Z -> Z -> string.
Variable env_JWT_SECRET env_NODE_ENV : option string.





End SigninProperties.


(** * Tokens in the [Authorization] header *)

Lemma split_without_separator sep t :
  includesChar sep t = false -> split sep t = [t].
Proof.
  induction t as [|c t IH]; cbn [includesChar split]; [done|].
  intros [Hc Ht]%orb_false_elim. by rewrite Hc, (IH Ht).
Qed.

Lemma split_at_separator sep t rest :
  includesChar sep t = false ->
  split sep (t +:+ String sep rest) = t :: split sep rest.
Proof.
  induction t as [|c t IH]; cbn [includesChar].
  - intros _. change ("" +:+ String sep rest) with (String sep rest).
    cbn [split]. by rewrite Ascii.eqb_refl.
  - intros [Hc Ht]%orb_false_elim.
    change (String c t +:+ String sep rest) with (String c (t +:+ String sep rest)).
    cbn [split]. by rewrite Hc, (IH Ht).
Qed.

(** The second piece of a header made of a scheme word, a space and a token
    is the token, up to its first space. *)
Lemma second_piece scheme t :
  includesChar " " scheme = false -> includesChar " " t = false ->
  split " " (scheme +:+ String " " t) !! 1%nat = Some t
  /\ forall rest,
       split " " (scheme +:+ String " " (t +:+ String " " rest)) !! 1%nat = Some t.
Proof.
  intros Hs Ht. split; [|intros rest]; rewrite (split_at_separator _ scheme _ Hs).
  - by rewrite (split_without_separator _ t Ht).
  - by rewrite (split_at_separator _ t _ Ht).
Qed.

(** X5: a client that holds no cookie and sends [Authorization: Bearer t], for
    a non-empty token [t] without spaces, has exactly [t] selected by the
    resolver, whatever the [x-auth-token] header and the query carry; when
    more text follows the token after a space, that text is dropped. *)
Theorem bearer_token_round_trip (cookie custom query : option string) (t rest : string) :
  truthyString cookie = false -> t <> "" -> includesChar " " t = false ->
  resolveToken (mkRequest cookie (Some ("Bearer " +:+ t)) custom query) = Some t
  /\ resolveToken (mkRequest cookie (Some ("Bearer " +:+ t +:+ " " +:+ rest)) custom query)
     = Some t.
Proof.
  intros Hc Hne Ht.
  destruct (second_piece "Bearer" t eq_refl Ht) as [H1 H2].
  unfold resolveToken. cbn [cookies_token headers_authorization default from_option id].
  rewrite Hc. split.
  - change ("Bearer " +:+ t) with ("Bearer" +:+ String " " t).
    change (startsWith "Bearer " ("Bearer" +:+ String " " t)) with true.
    exact H1.
  - change ("Bearer " +:+ t +:+ " " +:+ rest)
      with ("Bearer" +:+ String " " (t +:+ String " " rest)).
    change (startsWith "Bearer " ("Bearer" +:+ String " " (t +:+ String " " rest)))
      with true.
    apply H2.
Qed.

Lemma bearer_token_round_trip_witness :
  resolveToken (mkRequest None (Some ("Bearer " +:+ "alice.2000.k")) (Some "other") None)
  = Some "alice.2000.k".
Proof.
  refine (proj1 (bearer_token_round_trip None (Some "other") None "alice.2000.k" "" _ _ _));
    [reflexivity | discriminate | reflexivity].
Defined.

(** * Sessions: [/signup], [/signin], [/me], [/logout] *)

Section Session.

Variable jwt_sign : string -> string -> Z -> Z -> string.
Variable jwt_verify : string -> string -> Z -> verifyResult.
Variable toISOString : Z -> string.
Variable env_JWT_SECRET env_NODE_ENV : option string.


End Session.


(** * The demonstration routes *)

Section DemoProperties.

Variable jwt_verify : string -> string -> Z -> verifyResult.
Variable env_JWT_SECRET : option string.
Variable users : list user.
Variable now : Z.

(** X7: [/demo/cookie-only] does less than the middleware.  For a request
    with a non-empty cookie token: when the token decodes to a user name that
    [users] does not hold, the middleware answers "User not found" but the
    demonstration route answers 200; and when the library raises, also for
    an expired token, the demonstration route answers "Invalid token". *)
Theorem demo_cookie_route_skips_lookup (req : request) (token : string) :
  cookies_token req = Some token -> token <> "" ->
  (forall decoded,
     jwt_verify token (JWT_SECRET env_JWT_SECRET) now = Decoded decoded ->
     (forall u, In u users -> Some (username u) <> decoded_username decoded) ->
     snd (authenticateToken jwt_verify env_JWT_SECRET users now req)
       = Rejected (report PrincipalNotFound)
     /\ demoCookieOnly jwt_verify env_JWT_SECRET now req
        = mkResponse 200 (("message", "Authenticated via Cookie") :: usernameField decoded))
  /\ (forall error,
        jwt_verify token (JWT_SECRET env_JWT_SECRET) now = Throws error ->
        demoCookieOnly jwt_verify env_JWT_SECRET now req = report MalformedToken
        /\ snd (authenticateToken jwt_verify env_JWT_SECRET users now req)
           = Rejected (catchClause error)).
Proof using Type.
  intros Hc Hne.
  assert (Htruthy : truthyString (cookies_token req) = true).
  { rewrite Hc. cbn. by destruct (String.eqb_spec token ""). }
  destruct (cookie_token_selected req Htruthy) as [Hres _]. rewrite Hc in Hres.
  unfold demoCookieOnly, authenticateToken.
  rewrite (authenticateWith_token _ _ _ _ req token Hres Hne), Htruthy, Hc.
  cbn [negb default from_option id]. split.
  - intros decoded Hv Hno. rewrite Hv.
    by rewrite (usersFind_no_match users _ Hno).
  - intros error Hv. by rewrite Hv.
Qed.

End DemoProperties.

Lemma demo_cookie_route_skips_lookup_witness :
  demoCookieOnly toyVerify None 3000
    (mkRequest (Some "alice.2000.your-secret-key") None None None)
  = report MalformedToken
  /\ snd (authenticateToken toyVerify None [] 3000
            (mkRequest (Some "alice.2000.your-secret-key") None None None))
     = Rejected (catchClause (mkError "TokenExpiredError" "jwt expired" "")).
Proof.
  refine (proj2 (demo_cookie_route_skips_lookup toyVerify None [] 3000
                   (mkRequest (Some "alice.2000.your-secret-key") None None None)
                   "alice.2000.your-secret-key" _ _) _ _).
  - reflexivity.
  - discriminate.
  - reflexivity.
Defined.

(** * The age check of 4.4-middlewares.js *)








(** * The chain of 4.4-middlewares.js *)

Lemma ride1Limiter_outcome (table : object) userId :
  fst (ride1Limiter table userId) = Next
  \/ fst (ride1Limiter table userId) = Respond tooManyRide1Requests.
Proof. unfold ride1Limiter. destruct (greater _ 1); auto. Qed.

Lemma isOldEnough_outcome age :
  isOldEnough age = Next
  \/ isOldEnough age
     = Respond (mkResponse 401 [("error", "You are not old enough to ride the ride1")]).
Proof.
  unfold isOldEnough. destruct (parseInt age) as [n|]; [|auto].
  destruct (n <? 18); auto.
Qed.

(** The rate limit runs first: the table after a request is the one that the
    limiter leaves, whatever the route and the age. *)
Lemma handleRide1_table st req :
  requestTable (snd (handleRide1 st req))
  = snd (ride1Limiter (requestTable st) (req_userId req)).
Proof.
  unfold handleRide1.
  destruct (ride1Limiter (requestTable st) (req_userId req)) as [[r|] table]; [done|].
  destruct (req_route req); [done|]. by destruct (isOldEnough (req_age req)).
Qed.

(** X9: a request that fails the age check has used up the quota of its
    user.  For a user identifier that [Object.prototype] does not define and
    a table without an entry for it, a request to [/ride1] that the age
    check turns down is answered 401, and the next request of that user in
    the same window is answered 429 whatever its route and its age. *)
Theorem failed_age_check_uses_quota (st : ride1State) (userId age1 age2 : option string)
  (route2 : route) :
  inherited (propertyKey userId) = None ->
  requestTable st !! propertyKey userId = None ->
  isOldEnough age1 <> Next ->
  fst (serve [Arrives (mkRide1Request userId GetRide1 age1);
              Arrives (mkRide1Request userId route2 age2)] st)
  = [mkResponse 401 [("error", "You are not old enough to ride the ride1")];
     tooManyRide1Requests].
Proof.
  intros Hk Hnone Hage.
  assert (H1 : ride1Limiter (requestTable st) userId
               = (Next, <[propertyKey userId := PNum 1]> (requestTable st))).
  { rewrite (ride1Limiter_number _ userId 0); [done|].
    right. by rewrite get_of_lookup, Hnone. }
  assert (H2 : ride1Limiter (<[propertyKey userId := PNum 1]> (requestTable st)) userId
               = (Respond tooManyRide1Requests,
                  <[propertyKey userId := PNum 2]>
                    (<[propertyKey userId := PNum 1]> (requestTable st)))).
  { rewrite (ride1Limiter_number _ userId 1); [done|].
    left. by rewrite get_of_lookup, lookup_insert_eq. }
  cbn [serve]. unfold handleRide1 at 1.
  cbn [req_userId req_route req_age requestTable requestCounter]. rewrite H1.
  destruct (isOldEnough_outcome age1) as [Hn|Hr]; [done|]. rewrite Hr.
  unfold handleRide1. cbn [req_userId req_route req_age requestTable requestCounter].
  by rewrite H2.
Qed.

Lemma failed_age_check_uses_quota_witness :
  fst (serve [Arrives (mkRide1Request (Some "u1") GetRide1 (Some "17"));
              Arrives (mkRide1Request (Some "u1") GetRide1 (Some "30"))]
         (mkRide1State 0 ∅))
  = [mkResponse 401 [("error", "You are not old enough to ride the ride1")];
     tooManyRide1Requests].
Proof.
  apply (failed_age_check_uses_quota (mkRide1State 0 ∅) (Some "u1") (Some "17")
           (Some "30") GetRide1).
  - reflexivity.
  - reflexivity.
  - discriminate.
Defined.

Lemma handleRide1_counter st req :
  requestCounter (snd (handleRide1 st req))
  = (requestCounter st
     + length (filter (fun r => status r <> 429%Z) [fst (fst (handleRide1 st req))]))%nat.
Proof.
  unfold handleRide1.
  destruct (ride1Limiter_outcome (requestTable st) (req_userId req)) as [Ho|Ho];
    destruct (ride1Limiter (requestTable st) (req_userId req)) as [o table];
    cbn [fst] in Ho; subst o.
  - destruct (req_route req);
      [|destruct (isOldEnough_outcome (req_age req)) as [-> | ->]];
      cbn [fst snd requestCounter]; rewrite (filter_cons _ _ []), filter_nil;
      (case_decide as Hd; cbn [length]; [lia|]);
      cbn in Hd; discriminate Hd.
  - cbn [fst snd requestCounter]. rewrite (filter_cons _ _ []), filter_nil.
    case_decide as Hd; cbn [length]; [|lia]. exfalso. by apply Hd.
Qed.

(** X10: [requestCounter] counts the requests that got past the rate limit,
    not all requests: after any run it has grown by the number of responses
    whose status is not 429; requests that end in 401 or 500 are counted, and
    the window timer never resets it. *)
Theorem request_counter_skips_throttled (evs : list ride1Event) (st : ride1State) :
  requestCounter (snd (serve evs st))
  = (requestCounter st
     + length (filter (fun r => status r <> 429%Z) (fst (serve evs st))))%nat.
Proof.
  revert st. induction evs as [|[req|] evs IH]; intros st.
  - cbn. lia.
  - cbn [serve]. pose proof (handleRide1_counter st req) as Hstep.
    destruct (handleRide1 st req) as [[r logs] st'].
    specialize (IH st'). destruct (serve evs st') as [rs st''].
    cbn [fst snd] in *. rewrite IH, Hstep.
    rewrite (filter_cons _ r rs), (filter_cons _ r []).
    destruct (decide (status r <> 429)); cbn; lia.
  - cbn [serve]. apply (IH (mkRide1State _ _)).
Qed.

(** * The CORS middlewares of part_008 *)


(** X12: every preflight is answered by the first CORS middleware, so the
    second one never answers: the chain sends a status exactly for the
    method OPTIONS, and the headers of that answer are those of the first
    middleware, whose list of methods has no PATCH, with the credentials and
    max-age headers left as they were. *)
Theorem cors_preflight_answered_first (req : corsRequest) (headers : gmap string string) :
  (fst (corsChain req headers) = SendStatus 200 <-> method req = "OPTIONS")
  /\ (method req = "OPTIONS" ->
      corsChain req headers = corsAllowAll req headers
      /\ snd (corsChain req headers) !! "Access-Control-Allow-Methods"
         = Some "GET, POST, PUT, DELETE, OPTIONS"
      /\ snd (corsChain req headers) !! "Access-Control-Allow-Credentials"
         = headers !! "Access-Control-Allow-Credentials"
      /\ snd (corsChain req headers) !! "Access-Control-Max-Age"
         = headers !! "Access-Control-Max-Age")
  /\ (fst (corsAllowAll req headers) = CorsNext ->
      fst (corsAllowList req (snd (corsAllowAll req headers))) = CorsNext).
Proof.
  unfold corsChain, corsAllowAll, corsAllowList.
  destruct (String.eqb_spec (method req) "OPTIONS") as [Hm|Hm]; cbn [fst snd].
  - repeat split; try done.
    + by rewrite !lookup_insert_ne, lookup_insert_eq by done.
    + by rewrite !lookup_insert_ne by done.
    + by rewrite !lookup_insert_ne by done.
  - repeat split; done.
Qed.

(** * The limiter of part_008 over its lifetime *)

Lemma requestsOf_app k ips1 ips2 :
  requestsOf k (ips1 ++ ips2) = requestsOf k ips1 + requestsOf k ips2.
Proof. unfold requestsOf. rewrite filter_app, length_app. lia. Qed.

(** X13: the table of [rateLimiter(maxRequests)] is never cleared, so the
    maximum is a cap for the lifetime of the server: for an address that
    [Object.prototype] does not define, a request is admitted exactly when
    fewer than [maxRequests] requests of that address came before, and once
    one is rejected every later one is rejected too, however much time and
    however many requests of others lie in between. *)
Theorem limiter_cap_is_permanent (max : Z) (earlier later : list (option string))
  (ip : option string) :
  inherited (propertyKey ip) = None ->
  (fst (rateLimiter max (snd (runLimiter max earlier ∅)) ip) = Next
   <-> requestsOf (propertyKey ip) earlier < max)
  /\ (fst (rateLimiter max (snd (runLimiter max earlier ∅)) ip) = Respond tooManyRequests ->
      fst (rateLimiter max (snd (runLimiter max (earlier ++ later) ∅)) ip)
      = Respond tooManyRequests).
Proof.
  intros Hk. rewrite !(window_boundary max _ ip Hk), requestsOf_app.
  assert (Hlater : 0 <= requestsOf (propertyKey ip) later)
    by (unfold requestsOf; lia).
  destruct (Z.ltb_spec (requestsOf (propertyKey ip) earlier) max) as [Hlt|Hge];
    (split; [split; [done || lia | done || lia] |]).
  - intros [=].
  - intros _. destruct (Z.ltb_spec (requestsOf (propertyKey ip) earlier
                                    + requestsOf (propertyKey ip) later) max); [lia|done].
Qed.

Lemma limiter_cap_is_permanent_witness :
  fst (rateLimiter 1 (snd (runLimiter 1 ([Some "10.0.0.1"] ++ [Some "10.0.0.2"]) ∅))
         (Some "10.0.0.1"))
  = Respond tooManyRequests.
Proof.
  refine (proj2 (limiter_cap_is_permanent 1 [Some "10.0.0.1"] [Some "10.0.0.2"]
                   (Some "10.0.0.1") _) _).
  - reflexivity.
  - reflexivity.
Defined.

(** * Tokens read from the second piece of the header *)

(** X14: [auth] (7.1, 7.2) and [authenticateToken] (part_006) do not look at
    the scheme of the [Authorization] header: for any first word without a
    space and a non-empty token [t] without a space, the
    header made of the word, a space and [t] has [t] checked by
    [jwt.verify] and the outcome follows its result; a header that is the
    bare token, without a space, is turned down as if no token was sent. *)
Theorem header_auth_ignores_scheme
  (payload : Type) (userId : payload -> option string)
  (verify : string -> option string -> Z -> payload + jsError)
  (verify' : string -> string -> Z -> payload + jsError)
  (env_JWT_SECRET : option string) (now : Z) (scheme t : string) :
  includesChar " " scheme = false -> includesChar " " t = false -> t <> "" ->
  Todo.auth payload userId verify env_JWT_SECRET now (Some (scheme +:+ " " +:+ t))
  = match verify t env_JWT_SECRET now with
    | inl decoded => HeaderAdmitted (userId decoded)
    | inr _ => HeaderRejected (mkResponse 401 [("message", "Invalid token")])
    end
  /\ Todo.auth payload userId verify env_JWT_SECRET now (Some t)
     = HeaderRejected (mkResponse 401 [("message", "Unauthorized")])
  /\ SimpleAuth.authenticateToken payload verify' now (Some (scheme +:+ " " +:+ t))
     = match verify' t SimpleAuth.JWT_SECRET now with
       | inl decoded => HeaderAdmitted decoded
       | inr _ => HeaderRejected (mkResponse 403 [("message", "Invalid or expired token")])
       end
  /\ SimpleAuth.authenticateToken payload verify' now (Some t)
     = HeaderRejected (mkResponse 401 [("message", "Access token required")]).
Proof.
  intros Hs Ht Hne.
  destruct (second_piece scheme t Hs Ht) as [Hpiece _].
  assert (Hheader : secondPiece (Some (scheme +:+ " " +:+ t)) = Some t) by exact Hpiece.
  assert (Hbare : secondPiece (Some t) = None).
  { unfold secondPiece. by rewrite (split_without_separator _ t Ht). }
  assert (Htruthy : truthyString (Some t) = true).
  { cbn. by destruct (String.eqb_spec t ""). }
  assert (Hnonempty : truthyString (Some (scheme +:+ " " +:+ t)) = true).
  { cbn. destruct (String.eqb_spec (scheme +:+ " " +:+ t) "") as [E|]; [|done].
    by destruct scheme. }
  unfold Todo.auth, SimpleAuth.authenticateToken.
  rewrite ?Hnonempty, ?Htruthy, ?Hheader, ?Hbare, ?Htruthy.
  repeat split.
Qed.

Lemma header_auth_ignores_scheme_witness :
  Todo.auth tokenData decoded_username
    (fun token _ now => match toyVerify token "k" now with
                        | Decoded d => inl d
                        | Throws e => inr e
                        end) None 1000 (Some ("Basic" +:+ " " +:+ "alice.2000.k"))
  = HeaderAdmitted (Some "alice").
Proof.
  refine (proj1 (header_auth_ignores_scheme tokenData decoded_username
                   (fun token _ now => match toyVerify token "k" now with
                                       | Decoded d => inl d
                                       | Throws e => inr e
                                       end)
                   (fun _ _ _ => inr (mkError "JsonWebTokenError" "" ""))
                   None 1000 "Basic" "alice.2000.k" _ _ _));
    [reflexivity | reflexivity | discriminate].
Defined.

(** * The routes of 4.3-express-and-http-servers.js *)

Lemma kidney_counts_sum (kidneys : list bool) :
  Kidneys.healthyCount kidneys + Kidneys.unhealthyCount kidneys
  = Z.of_nat (length kidneys)
  /\ 0 <= Kidneys.healthyCount kidneys /\ 0 <= Kidneys.unhealthyCount kidneys.
Proof.
  unfold Kidneys.healthyCount, Kidneys.unhealthyCount.
  induction kidneys as [|[] kidneys IH]; cbn [List.filter negb length]; lia.
Qed.

Lemma no_unhealthy_kidney (kidneys : list bool) :
  Nat.eqb (length (List.filter (fun healthy => negb healthy) kidneys)) 0 = true
  <-> ~ In false kidneys.
Proof.
  induction kidneys as [|[] kidneys IH]; cbn [List.filter negb length In].
  - split; [tauto|done].
  - rewrite IH. split; [intros H [E|E]; [discriminate|tauto]|tauto].
  - split; [discriminate|]. intros H. destruct H. by left.
Qed.

Lemma all_healthy_after_put (kidneys : list bool) :
  ~ In false (map (fun _ : bool => true) kidneys).
Proof. induction kidneys as [|b kidneys IH]; cbn; [tauto|]. intros [E|E]; [discriminate|tauto]. Qed.

Lemma all_healthy_after_delete (kidneys : list bool) :
  ~ In false (List.filter (fun healthy : bool => healthy) kidneys).
Proof.
  intros Hin. apply filter_In in Hin as [_ E]. discriminate E.
Qed.

Lemma putKidneys_cases (p : Kidneys.patient) :
  (~ In false (Kidneys.kidney p)
   /\ Kidneys.putKidneys (Some p)
      = (Kidneys.mkJsonResponse 400
           [("error", Kidneys.JString "No unhealthy kidneys to update")], Some p))
  \/ (In false (Kidneys.kidney p)
      /\ Kidneys.putKidneys (Some p)
         = (Kidneys.mkJsonResponse 200
              (("message", Kidneys.JString "All kidneys updated to healthy")
                 :: Kidneys.counts (map (fun _ => true) (Kidneys.kidney p))),
            Some (Kidneys.mkPatient (Kidneys.name p) (Kidneys.id p)
                    (map (fun _ => true) (Kidneys.kidney p))))).
Proof.
  unfold Kidneys.putKidneys.
  pose proof (no_unhealthy_kidney (Kidneys.kidney p)) as Hnone.
  destruct (Nat.eqb _ 0).
  - left. split; [by apply Hnone|done].
  - right. split; [|done].
    destruct (in_dec bool_dec false (Kidneys.kidney p)) as [|Hn]; [done|].
    apply Hnone in Hn. discriminate Hn.
Qed.

Lemma deleteKidneys_cases (p : Kidneys.patient) :
  (~ In false (Kidneys.kidney p)
   /\ Kidneys.deleteKidneys (Some p)
      = (Kidneys.mkJsonResponse 411
           [("error", Kidneys.JString "No unhealthy kidneys to remove")], Some p))
  \/ (In false (Kidneys.kidney p)
      /\ Kidneys.deleteKidneys (Some p)
         = (Kidneys.mkJsonResponse 200
              (("message", Kidneys.JString "All unhealthy kidneys removed successfully")
                 :: Kidneys.counts (List.filter (fun healthy => healthy) (Kidneys.kidney p))),
            Some (Kidneys.mkPatient (Kidneys.name p) (Kidneys.id p)
                    (List.filter (fun healthy => healthy) (Kidneys.kidney p))))).
Proof.
  unfold Kidneys.deleteKidneys.
  pose proof (no_unhealthy_kidney (Kidneys.kidney p)) as Hnone.
  destruct (Nat.eqb _ 0).
  - left. split; [by apply Hnone|done].
  - right. split; [|done].
    destruct (in_dec bool_dec false (Kidneys.kidney p)) as [|Hn]; [done|].
    apply Hnone in Hn. discriminate Hn.
Qed.

(** X15: in every 200 response of the four routes, the three counts describe
    the array as the route leaves it: [numberOfKidneys] is its length, and
    [healthyKidneys] and [unhealthyKidneys] are non-negative numbers whose
    sum is that length. *)
Theorem kidney_counts_add_up (req : Kidneys.request) (users0 : option Kidneys.patient) :
  Kidneys.code (fst (Kidneys.handle req users0)) = 200 ->
  exists p healthy unhealthy,
    snd (Kidneys.handle req users0) = Some p
    /\ Kidneys.field "numberOfKidneys" (Kidneys.fields (fst (Kidneys.handle req users0)))
       = Some (Kidneys.JNumber (Z.of_nat (length (Kidneys.kidney p))))
    /\ Kidneys.field "healthyKidneys" (Kidneys.fields (fst (Kidneys.handle req users0)))
       = Some (Kidneys.JNumber healthy)
    /\ Kidneys.field "unhealthyKidneys" (Kidneys.fields (fst (Kidneys.handle req users0)))
       = Some (Kidneys.JNumber unhealthy)
    /\ healthy + unhealthy = Z.of_nat (length (Kidneys.kidney p))
    /\ 0 <= healthy /\ 0 <= unhealthy.
Proof.
  intros Hcode.
  assert (Hcounts : forall kidneys, exists healthy unhealthy,
    Kidneys.healthyCount kidneys = healthy /\ Kidneys.unhealthyCount kidneys = unhealthy
    /\ healthy + unhealthy = Z.of_nat (length kidneys) /\ 0 <= healthy /\ 0 <= unhealthy).
  { intros kidneys. destruct (kidney_counts_sum kidneys) as (? & ? & ?). eauto 10. }
  destruct users0 as [p|]; [|by destruct req as [|[[]|]| |]].
  destruct req as [|isHealthy| |]; cbn [Kidneys.handle] in *.
  - destruct (Hcounts (Kidneys.kidney p)) as (h & u & Hh & Hu & Hsum & ? & ?).
    exists p, h, u. cbn. rewrite Hh, Hu. repeat split; done.
  - unfold Kidneys.postKidney in *. destruct isHealthy as [[s|n|b]|]; try done.
    destruct (Hcounts (Kidneys.kidney p ++ [b])%list) as (h & u & Hh & Hu & Hsum & ? & ?).
    eexists _, h, u. cbn [fst snd Kidneys.fields Kidneys.kidney].
    split; [reflexivity|]. cbn. rewrite Hh, Hu. repeat split; done.
  - unfold Kidneys.putKidneys in *. destruct (Nat.eqb _ 0); [done|].
    destruct (Hcounts (map (fun _ => true) (Kidneys.kidney p)))
      as (h & u & Hh & Hu & Hsum & ? & ?).
    eexists _, h, u. cbn [fst snd Kidneys.fields Kidneys.kidney].
    split; [reflexivity|]. cbn. rewrite Hh, Hu. repeat split; done.
  - unfold Kidneys.deleteKidneys in *. destruct (Nat.eqb _ 0); [done|].
    destruct (Hcounts (List.filter (fun healthy => healthy) (Kidneys.kidney p)))
      as (h & u & Hh & Hu & Hsum & ? & ?).
    eexists _, h, u. cbn [fst snd Kidneys.fields Kidneys.kidney].
    split; [reflexivity|]. cbn. rewrite Hh, Hu. repeat split; done.
Qed.

Lemma kidney_counts_add_up_witness :
  exists p healthy unhealthy,
    snd (Kidneys.handle Kidneys.Delete
           (Some (Kidneys.mkPatient "John" 1 [true; false; true]))) = Some p
    /\ Kidneys.field "numberOfKidneys"
         (Kidneys.fields (fst (Kidneys.handle Kidneys.Delete
            (Some (Kidneys.mkPatient "John" 1 [true; false; true])))))
       = Some (Kidneys.JNumber (Z.of_nat (length (Kidneys.kidney p))))
    /\ Kidneys.field "healthyKidneys"
         (Kidneys.fields (fst (Kidneys.handle Kidneys.Delete
            (Some (Kidneys.mkPatient "John" 1 [true; false; true])))))
       = Some (Kidneys.JNumber healthy)
    /\ Kidneys.field "unhealthyKidneys"
         (Kidneys.fields (fst (Kidneys.handle Kidneys.Delete
            (Some (Kidneys.mkPatient "John" 1 [true; false; true])))))
       = Some (Kidneys.JNumber unhealthy)
    /\ healthy + unhealthy = Z.of_nat (length (Kidneys.kidney p))
    /\ 0 <= healthy /\ 0 <= unhealthy.
Proof.
  apply (kidney_counts_add_up Kidneys.Delete
           (Some (Kidneys.mkPatient "John" 1 [true; false; true]))).
  reflexivity.
Defined.

(** X16: [PUT /] answers 200 exactly when the patient has an unhealthy
    kidney; it then leaves the same number of kidneys, all healthy, and the
    name and identifier as they were, after which a second [PUT /] is
    answered 400 and a [DELETE /] 411, both without changing anything; when
    no kidney is unhealthy it answers 400 and changes nothing. *)
Theorem put_heals_every_kidney (p : Kidneys.patient) :
  let st' := snd (Kidneys.putKidneys (Some p)) in
  (Kidneys.code (fst (Kidneys.putKidneys (Some p))) = 200 <-> In false (Kidneys.kidney p))
  /\ (In false (Kidneys.kidney p) ->
      st' = Some (Kidneys.mkPatient (Kidneys.name p) (Kidneys.id p)
                    (repeat true (length (Kidneys.kidney p))))
      /\ Kidneys.putKidneys st'
         = (Kidneys.mkJsonResponse 400
              [("error", Kidneys.JString "No unhealthy kidneys to update")], st')
      /\ Kidneys.deleteKidneys st'
         = (Kidneys.mkJsonResponse 411
              [("error", Kidneys.JString "No unhealthy kidneys to remove")], st'))
  /\ (~ In false (Kidneys.kidney p) ->
      Kidneys.putKidneys (Some p)
      = (Kidneys.mkJsonResponse 400
           [("error", Kidneys.JString "No unhealthy kidneys to update")], Some p)).
Proof.
  cbv zeta.
  destruct (putKidneys_cases p) as [[Hno Hput]|[Hsome Hput]]; rewrite Hput;
    cbn [fst snd Kidneys.code].
  - split; [split; [discriminate|done]|]. split; done.
  - split; [done|]. split; [|done]. intros _.
    assert (Hmap : forall l : list bool,
              map (fun _ : bool => true) l = repeat true (length l)).
    { induction l as [|b l IH]; cbn; [done|]. by rewrite IH. }
    rewrite <- Hmap. split; [done|].
    set (p' := Kidneys.mkPatient _ _ _).
    assert (Hclean : ~ In false (Kidneys.kidney p')) by apply all_healthy_after_put.
    destruct (putKidneys_cases p') as [[_ ->]|[Hbad _]]; [|done].
    destruct (deleteKidneys_cases p') as [[_ ->]|[Hbad _]]; done.
Qed.

(** X17: [DELETE /] answers 200 exactly when the patient has an unhealthy
    kidney; it then keeps exactly the healthy kidneys, in their order, and
    reports their number with no unhealthy one left, after which a second
    [DELETE /] is answered 411 without changing anything. *)
Theorem delete_keeps_healthy_kidneys (p : Kidneys.patient) :
  let st' := snd (Kidneys.deleteKidneys (Some p)) in
  (Kidneys.code (fst (Kidneys.deleteKidneys (Some p))) = 200
   <-> In false (Kidneys.kidney p))
  /\ (In false (Kidneys.kidney p) ->
      st' = Some (Kidneys.mkPatient (Kidneys.name p) (Kidneys.id p)
                    (repeat true (Z.to_nat (Kidneys.healthyCount (Kidneys.kidney p)))))
      /\ Kidneys.fields (fst (Kidneys.deleteKidneys (Some p)))
         = [("message", Kidneys.JString "All unhealthy kidneys removed successfully");
            ("numberOfKidneys", Kidneys.JNumber (Kidneys.healthyCount (Kidneys.kidney p)));
            ("healthyKidneys", Kidneys.JNumber (Kidneys.healthyCount (Kidneys.kidney p)));
            ("unhealthyKidneys", Kidneys.JNumber 0)]
      /\ Kidneys.deleteKidneys st'
         = (Kidneys.mkJsonResponse 411
              [("error", Kidneys.JString "No unhealthy kidneys to remove")], st')).
Proof.
  cbv zeta.
  destruct (deleteKidneys_cases p) as [[Hno Hdel]|[Hsome Hdel]]; rewrite Hdel;
    cbn [fst snd Kidneys.code Kidneys.fields].
  - split; [split; [discriminate|done]|]. done.
  - split; [done|]. intros _.
    set (kept := List.filter (fun healthy : bool => healthy) (Kidneys.kidney p)).
    assert (Hall : forall l : list bool,
              List.filter (fun healthy : bool => healthy) l
              = repeat true (length (List.filter (fun healthy : bool => healthy) l))).
    { induction l as [|[] l IH]; cbn; [done| |done]. by rewrite <- IH. }
    assert (Hkept : kept = repeat true (length kept)) by apply Hall.
    assert (Hcount : Kidneys.healthyCount (Kidneys.kidney p) = Z.of_nat (length kept))
      by reflexivity.
    assert (Hidem : List.filter (fun healthy : bool => healthy) kept = kept).
    { assert (Hgen : forall l : list bool,
                List.filter (fun healthy : bool => healthy)
                  (List.filter (fun healthy : bool => healthy) l)
                = List.filter (fun healthy : bool => healthy) l).
      { induction l as [|[] l IH]; cbn; [done| |done]. by rewrite IH. }
      apply Hgen. }
    assert (Hh : Kidneys.healthyCount kept = Z.of_nat (length kept)).
    { unfold Kidneys.healthyCount. by rewrite Hidem. }
    assert (Hu : Kidneys.unhealthyCount kept = 0).
    { destruct (kidney_counts_sum kept) as (Hsum & _ & _). lia. }
    rewrite Hcount, Nat2Z.id, <- Hkept.
    split; [done|]. split.
    + unfold Kidneys.counts. by rewrite Hh, Hu.
    + set (p' := Kidneys.mkPatient _ _ _).
      assert (Hclean : ~ In false (Kidneys.kidney p')) by apply all_healthy_after_delete.
      destruct (deleteKidneys_cases p') as [[_ ->]|[Hbad _]]; done.
Qed.

(** X18: [POST /] adds a kidney only for a boolean [isHealthy]: every other
    body is answered 400 and changes nothing.  Adding an unhealthy kidney
    and then calling [DELETE /] always succeeds and leaves exactly the
    healthy kidneys that the patient had before. *)
Theorem post_then_delete (p : Kidneys.patient) (isHealthy : option Kidneys.json) :
  ((forall b, isHealthy <> Some (Kidneys.JBoolean b)) ->
   Kidneys.postKidney isHealthy (Some p)
   = (Kidneys.mkJsonResponse 400
        [("error", Kidneys.JString "isHealthy must be a boolean")], Some p))
  /\ (forall b,
        snd (Kidneys.postKidney (Some (Kidneys.JBoolean b)) (Some p))
        = Some (Kidneys.mkPatient (Kidneys.name p) (Kidneys.id p)
                  (Kidneys.kidney p ++ [b])%list))
  /\ let st' := snd (Kidneys.postKidney (Some (Kidneys.JBoolean false)) (Some p)) in
     Kidneys.code (fst (Kidneys.deleteKidneys st')) = 200
     /\ snd (Kidneys.deleteKidneys st')
        = Some (Kidneys.mkPatient (Kidneys.name p) (Kidneys.id p)
                  (List.filter (fun healthy => healthy) (Kidneys.kidney p))).
Proof.
  split; [|split; [done|]].
  - intros Hnot. unfold Kidneys.postKidney.
    destruct isHealthy as [[s|n|b]|]; try done. by destruct (Hnot b).
  - cbv zeta. cbn [Kidneys.postKidney snd].
    unfold Kidneys.deleteKidneys. cbn [Kidneys.kidney Kidneys.name Kidneys.id].
    assert (Hsome : Nat.eqb (length (List.filter (fun healthy => negb healthy)
                                       (Kidneys.kidney p ++ [false]))) 0 = false).
    { rewrite List.filter_app, length_app. cbn. apply Nat.eqb_neq. lia. }
    rewrite Hsome. cbn [fst snd Kidneys.code]. split; [done|].
    rewrite List.filter_app. cbn. by rewrite app_nil_r.
Qed.

(** * The resolver and the priority order *)

(** X19: the resolver follows the priority order cookie, bearer header,
    custom header, query parameter whenever the [Authorization] header is
    not a bearer header with an empty second piece: its result is then the
    first non-empty candidate, and it is empty exactly when all four
    candidates are. *)
Theorem resolver_priority_order (req : request) :
  bearerCandidate req <> Some "" ->
  resolveToken req = firstNonEmpty (candidates req)
  /\ (truthyString (resolveToken req) = false
      <-> Forall (fun c => truthyString c = false) (candidates req)).
Proof.
  intros Hb.
  pose proof (resolveToken_first_non_empty req (or_intror Hb)) as Heq.
  split; [exact Heq|]. split; [|apply no_candidate_no_token].
  rewrite Heq. unfold resolve_spec.
  induction (candidates req) as [|c cs IH]; cbn [firstNonEmpty]; [constructor|].
  destruct (truthyString c) eqn:Hc.
  - intros Hf. rewrite Hf in Hc. discriminate Hc.
  - intros Hf. constructor; [done|]. by apply IH.
Qed.

Lemma resolver_priority_order_witness :
  resolveToken (mkRequest (Some "") (Some "Basic abc") (Some "tok") (Some "q"))
  = firstNonEmpty (candidates (mkRequest (Some "") (Some "Basic abc") (Some "tok") (Some "q"))).
Proof.
  refine (proj1 (resolver_priority_order
                   (mkRequest (Some "") (Some "Basic abc") (Some "tok") (Some "q")) _)).
  discriminate.
Defined.

(** * The fixed window of 4.4-middlewares.js *)

Lemma run_snd_app evs1 evs2 (table : object) :
  snd (run (evs1 ++ evs2) table) = snd (run evs2 (snd (run evs1 table))).
Proof. by rewrite run_app. Qed.

(** The table depends only on the requests of the current window. *)
Lemma run_window evs sofar :
  snd (run evs (snd (run (map Request sofar) ∅)))
  = snd (run (map Request (windowRequests evs sofar)) ∅).
Proof.
  revert sofar. induction evs as [|[u|] evs IH]; intros sofar; cbn [windowRequests].
  - done.
  - rewrite <- IH, map_app, run_snd_app. cbn [map].
    by rewrite !run_request.
  - rewrite run_timer. apply (IH []).
Qed.

(** In a window, the entry of a key that [Object.prototype] does not define
    is absent exactly when no request was counted under it. *)
Lemma window_entry us k :
  inherited k = None ->
  (requestsOf k us = 0 -> snd (run (map Request us) ∅) !! k = None)
  /\ (requestsOf k us <> 0 -> present (snd (run (map Request us) ∅)) k).
Proof.
  intros Hk. induction us as [|u us IH] using rev_ind.
  - split; [done|]. intros H. by destruct H.
  - rewrite map_app, run_snd_app, requestsOf_app. cbn [map].
    rewrite run_request. cbn [snd run].
    set (table := snd (run (map Request us) ∅)) in *.
    assert (Hus : 0 <= requestsOf k us) by (unfold requestsOf; lia).
    unfold requestsOf at 2 4. rewrite (filter_cons _ u []), filter_nil.
    destruct (decide (propertyKey u = k)) as [<-|Hne]; cbn [length].
    + split; [lia|]. intros _. apply ride1Limiter_counted_present; [done|].
      destruct (decide (requestsOf (propertyKey u) us = 0)) as [Hz|Hnz].
      * unfold counted. by rewrite (proj1 IH Hz).
      * by apply present_counted, IH.
    + rewrite Z.add_0_r. split; intros Hz.
      * rewrite ride1Limiter_lookup_other by done. by apply IH.
      * apply ride1Limiter_present; [done|]. by apply IH.
Qed.

(** X20: the window of 4.4-middlewares.js is a fixed one.  For a user
    identifier that [Object.prototype] does not define, after any sequence of
    requests and timer firings since the server started, a request is
    admitted exactly when no request with that identifier was received
    since the timer last fired, and its counter is then 1; otherwise it is
    answered 429. *)
Theorem fixed_window_admission (evs : list event) (userId : option string) :
  inherited (propertyKey userId) = None ->
  let earlier := requestsOf (propertyKey userId) (windowRequests evs []) in
  let result := ride1Limiter (snd (run evs ∅)) userId in
  (fst result = Next <-> earlier = 0)
  /\ (earlier = 0 -> snd result !! propertyKey userId = Some (PNum 1))
  /\ (earlier <> 0 -> fst result = Respond tooManyRide1Requests).
Proof.
  intros Hk. cbv zeta.
  pose proof (run_window evs []) as Hwin. cbn [map run snd] in Hwin. rewrite Hwin.
  destruct (window_entry (windowRequests evs []) _ Hk) as [Habsent Hpresent].
  set (table := snd (run (map Request (windowRequests evs [])) ∅)) in *.
  destruct (decide (requestsOf (propertyKey userId) (windowRequests evs []) = 0))
    as [Hz|Hnz].
  - assert (Hstep : ride1Limiter table userId
                    = (Next, <[propertyKey userId := PNum 1]> table)).
    { rewrite (ride1Limiter_number table userId 0); [done|].
      right. by rewrite get_of_lookup, (Habsent Hz). }
    rewrite Hstep. cbn [fst snd]. rewrite lookup_insert_eq. by repeat split.
  - pose proof (ride1Limiter_present_rejects table userId Hk (Hpresent Hnz)) as Hrej.
    rewrite Hrej. repeat split; try done.
Qed.

Lemma fixed_window_admission_witness :
  fst (ride1Limiter (snd (run [Request (Some "u1"); Request (Some "u2"); TimerFires;
                               Request (Some "u2")] ∅)) (Some "u1")) = Next
  <-> requestsOf (propertyKey (Some "u1"))
        (windowRequests [Request (Some "u1"); Request (Some "u2"); TimerFires;
                         Request (Some "u2")] []) = 0.
Proof.
  refine (proj1 (fixed_window_admission
                   [Request (Some "u1"); Request (Some "u2"); TimerFires;
                    Request (Some "u2")] (Some "u1") _)).
  reflexivity.
Defined.
